(** * pygeos.constructive: the parameter-normalisation and dispatch layer

    A shallow embedding of [pygeos/constructive.py].  The module is a thin
    Python front end over the compiled [ufuncs] extension: [buffer] resolves
    style names, checks that five of its parameters are scalars, coerces them
    and calls [ufuncs.buffer]; [simplify] picks one of two ufuncs; the other
    nine functions forward their arguments unchanged.

    Python values are dynamically typed, so the parameters that the module
    inspects are embedded as a sum type [pyval].  Raising is embedded as a
    [result], and every call into [ufuncs] is logged in a trace, so that
    "which primitive was called, with what, and was it called at all" can be
    stated. *)

From Stdlib Require Import List ZArith NArith String Ascii Bool Lia.
From Stdlib Require Import Floats.SpecFloat.
Import ListNotations.

Set Implicit Arguments.
Set Warnings "-register-all".
Local Open Scope Z_scope.

(** ** Python strings *)

(** A Python [str] is a sequence of Unicode code points. *)
Definition pystr := list N.

(** The [str] denoted by an ASCII literal. *)
Definition str (s : string) : pystr :=
  List.map N_of_ascii (list_ascii_of_string s).

Fixpoint pystr_eqb (s t : pystr) : bool :=
  match s, t with
  | [], [] => true
  | a :: s', b :: t' => N.eqb a b && pystr_eqb s' t'
  | _, _ => false
  end.

(** [str.upper] maps every code point through the Unicode full upper-case
    mapping, which may yield several code points.  On the ASCII range the
    mapping is the familiar one; above it the table belongs to the Python
    runtime and is taken as a parameter. *)
Class Unicode := { unicode_upper : N -> pystr }.

Definition ascii_upper (c : N) : N :=
  if (N.leb 97 c && N.leb c 122)%bool then N.sub c 32 else c.

Definition upper_cp `{Unicode} (c : N) : pystr :=
  if N.ltb c 128 then [ascii_upper c] else unicode_upper c.

Definition upper `{Unicode} (s : pystr) : pystr := flat_map upper_cp s.

(** ASCII case-insensitive equality of code points and of strings. *)
Definition cp_eqb_nocase (a b : N) : bool :=
  N.eqb a b
  || (N.ltb a 128 && N.ltb b 128 && N.eqb (ascii_upper a) (ascii_upper b))%bool.

Fixpoint eqb_nocase (s t : pystr) : bool :=
  match s, t with
  | [], [] => true
  | a :: s', b :: t' => cp_eqb_nocase a b && eqb_nocase s' t'
  | _, _ => false
  end.

Definition is_ascii (s : pystr) : bool := forallb (fun c => N.ltb c 128) s.

(** ** Exceptions and results *)

Inductive exn :=
| TypeError (msg : string)
| KeyError (key : pystr)
| ValueError (msg : string)
| OverflowError (msg : string)
| KernelError (msg : string).

Inductive result (A : Type) :=
| Ok (a : A)
| Raise (e : exn).
Arguments Ok {A} a.
Arguments Raise {A} e.

Definition rbind {A B} (r : result A) (f : A -> result B) : result B :=
  match r with
  | Ok a => f a
  | Raise e => Raise e
  end.

(** ** The style enumerations

    [class BufferCapStyles(IntEnum)] and [class BufferJoinStyles(IntEnum)].
    [getitem] is [EnumMeta.__getitem__]: a lookup by member name that raises
    [KeyError(name)] when there is no such member. *)

Module BufferCapStyles.
Inductive t := ROUND | FLAT | SQUARE.

Definition value (m : t) : Z :=
  match m with ROUND => 1 | FLAT => 2 | SQUARE => 3 end.

Definition name (m : t) : pystr :=
  match m with
  | ROUND => str "ROUND"
  | FLAT => str "FLAT"
  | SQUARE => str "SQUARE"
  end.

Definition members : list t := [ROUND; FLAT; SQUARE].

Definition getitem (key : pystr) : result t :=
  match find (fun m => pystr_eqb (name m) key) members with
  | Some m => Ok m
  | None => Raise (KeyError key)
  end.
End BufferCapStyles.

Module BufferJoinStyles.
Inductive t := ROUND | MITRE | BEVEL.

Definition value (m : t) : Z :=
  match m with ROUND => 1 | MITRE => 2 | BEVEL => 3 end.

Definition name (m : t) : pystr :=
  match m with
  | ROUND => str "ROUND"
  | MITRE => str "MITRE"
  | BEVEL => str "BEVEL"
  end.

Definition members : list t := [ROUND; MITRE; BEVEL].

Definition getitem (key : pystr) : result t :=
  match find (fun m => pystr_eqb (name m) key) members with
  | Some m => Ok m
  | None => Raise (KeyError key)
  end.
End BufferJoinStyles.

(** ** Python values *)

(** The values that may be passed for a parameter the module inspects.
    Members of the two enumerations are values of their own: an [IntEnum]
    member is an [int], but not a [str]. *)
Inductive pyval :=
| PyNone
| PyBool (b : bool)
| PyInt (z : Z)
| PyFloat (f : spec_float)
| PyStr (s : pystr)
| PyCapStyle (m : BufferCapStyles.t)
| PyJoinStyle (m : BufferJoinStyles.t)
| PyList (items : list pyval)
| PyTuple (items : list pyval)
| PyNdarray (dims : list nat) (items : list pyval).

(** [np.isscalar(v)]: true for Python numbers, strings and anything that is
    a [numbers.Number] (so for [IntEnum] members); false for [None], for
    sequences and for arrays of any dimension, 0-d included. *)
Definition np_isscalar (v : pyval) : bool :=
  match v with
  | PyBool _ | PyInt _ | PyFloat _ | PyStr _
  | PyCapStyle _ | PyJoinStyle _ => true
  | PyNone | PyList _ | PyTuple _ | PyNdarray _ _ => false
  end.

(** ** IEEE doubles *)

(** A Python [float] is a binary64 value. *)
Definition float_of_Z (z : Z) : spec_float := binary_normalize 53 1024 z 0 false.

Definition float_zero : spec_float := S754_zero false.

(** [trunc f]: the integer part of a finite double, rounded towards zero. *)
Definition float_trunc (f : spec_float) : option Z :=
  match f with
  | S754_zero _ => Some 0
  | S754_finite s m e =>
      let mag := if 0 <=? e then Zpos m * 2 ^ e else Zpos m / 2 ^ (- e) in
      Some (if s then - mag else mag)
  | S754_infinity _ | S754_nan => None
  end.

(** The integer a double denotes, when it denotes one. *)
Definition float_int_value (f : spec_float) : option Z :=
  match f with
  | S754_zero _ => Some 0
  | S754_finite s m e =>
      if 0 <=? e then Some (if s then - (Zpos m * 2 ^ e) else Zpos m * 2 ^ e)
      else if Zpos m mod 2 ^ (- e) =? 0
           then Some (if s then - (Zpos m / 2 ^ (- e)) else Zpos m / 2 ^ (- e))
           else None
  | S754_infinity _ | S754_nan => None
  end.

(** ** Coercions applied by [buffer] *)

(** The range of a C [int], the target of [np.intc]. *)
Definition intc_min : Z := - 2 ^ 31.
Definition intc_max : Z := 2 ^ 31 - 1.

Definition in_intc_range (z : Z) : bool := (intc_min <=? z) && (z <=? intc_max).

(** What [np.intc] does outside the cases written out in [np_intc] (an
    integer out of the C [int] range, a string, not-a-number, ...) depends
    on the NumPy release and platform; it is a parameter. *)
Class NumPy := { intc_other : pyval -> result Z }.

(** [np.intc(v)] for a scalar [v]: booleans and integers keep their value,
    a double is truncated towards zero. *)
Definition np_intc `{NumPy} (v : pyval) : result Z :=
  match v with
  | PyBool b => Ok (Z.b2z b)
  | PyInt z => if in_intc_range z then Ok z else intc_other v
  | PyCapStyle m => Ok (BufferCapStyles.value m)
  | PyJoinStyle m => Ok (BufferJoinStyles.value m)
  | PyFloat f =>
      match float_trunc f with
      | Some z => if in_intc_range z then Ok z else intc_other v
      | None => intc_other v
      end
  | _ => intc_other v
  end.

(** The integer a Python value denotes: the "semantic value" a coercion to
    an integer type has to preserve. *)
Definition int_value (v : pyval) : option Z :=
  match v with
  | PyBool b => Some (Z.b2z b)
  | PyInt z => Some z
  | PyCapStyle m => Some (BufferCapStyles.value m)
  | PyJoinStyle m => Some (BufferJoinStyles.value m)
  | PyFloat f => float_int_value f
  | _ => None
  end.

(** [bool(v)], Python truth.  In the NumPy releases this module runs on,
    [np.bool] is the builtin [bool]. *)
Fixpoint py_bool (v : pyval) : result bool :=
  match v with
  | PyNone => Ok false
  | PyBool b => Ok b
  | PyInt z => Ok (negb (z =? 0))
  | PyFloat f => Ok (match f with S754_zero _ => false | _ => true end)
  | PyStr s => Ok (match s with [] => false | _ => true end)
  | PyCapStyle m => Ok (negb (BufferCapStyles.value m =? 0))
  | PyJoinStyle m => Ok (negb (BufferJoinStyles.value m =? 0))
  | PyList l | PyTuple l => Ok (match l with [] => false | _ => true end)
  | PyNdarray _ l =>
      match l with
      | [] => Ok false
      | [x] => py_bool x
      | _ =>
          Raise (ValueError "The truth value of an array with more than one element is ambiguous")
      end
  end.

Definition np_bool (v : pyval) : result bool := py_bool v.

(** ** Geometries and arrays *)

(** Modelled from the spec: the geometry types of the absent [geometry]
    module (spec, section 3 and section 4.3). *)
Inductive geom_type :=
| POINT | LINESTRING | LINEARRING | POLYGON
| MULTIPOINT | MULTILINESTRING | MULTIPOLYGON | GEOMETRYCOLLECTION.

(** Modelled from the spec: [Geometry] and [Empty] of the absent
    [geometry] module.  A geometry is opaque to this layer: the
    distinguished [Empty], or a handle of which only the type is ever
    looked at; [body] stands for the coordinates (spec, section 3). *)
Inductive Geometry :=
| Empty
| Geom (t : geom_type) (body : string).

(** An n-dimensional array: its shape and its elements in row-major order.
    A scalar is the array of shape [[]]. *)
Record ndarray (A : Type) := mk_ndarray { shape : list nat; data : list A }.

Definition scalar {A} (a : A) : ndarray A := mk_ndarray [] [a].

Definition as_scalar {A} (x : ndarray A) : option A :=
  match shape x, data x with
  | [], [a] => Some a
  | _, _ => None
  end.

(** [x.flat[i]] as a scalar. *)
Definition item {A} (x : ndarray A) (i : nat) : option (ndarray A) :=
  option_map scalar (nth_error (data x) i).

Definition size {A} (x : ndarray A) : nat := List.length (data x).

(** ** Calls into the [ufuncs] extension *)

(** Keyword arguments forwarded by [boundary(geometry, **kwargs)]. *)
Definition kwargs := list (string * pyval).

(** One constructor per function of [ufuncs] the module calls, with the
    arguments of the call.  Arguments the module forwards untouched are
    typed as the arrays [ufuncs] reads them as; a scalar is a 0-d array. *)
Inductive ufunc_call :=
| Call_boundary (geometry : ndarray Geometry) (kw : kwargs)
| Call_buffer (geometry : ndarray Geometry) (radius : ndarray spec_float)
    (quadsegs cap_style join_style : Z) (mitre_limit : pyval)
    (single_sided : bool)
| Call_centroid (geometries : ndarray Geometry)
| Call_convex_hull (geometries : ndarray Geometry)
| Call_delaunay_triangles (geometry : ndarray Geometry)
    (tolerance : ndarray spec_float) (only_edges : ndarray bool)
| Call_envelope (geometries : ndarray Geometry)
| Call_extract_unique_points (geometries : ndarray Geometry)
| Call_point_on_surface (geometries : ndarray Geometry)
| Call_simplify (geometries : ndarray Geometry) (tolerance : ndarray spec_float)
| Call_simplify_preserve_topology (geometries : ndarray Geometry)
    (tolerance : ndarray spec_float)
| Call_snap (geometries reference : ndarray Geometry)
    (tolerance : ndarray spec_float)
| Call_voronoi_polygons (geometry : ndarray Geometry)
    (envelope : ndarray (option Geometry)) (tolerance : ndarray spec_float)
    (only_edges : ndarray bool).

(** The attribute of [ufuncs] a call goes to. *)
Inductive primitive :=
| U_boundary | U_buffer | U_centroid | U_convex_hull | U_delaunay_triangles
| U_envelope | U_extract_unique_points | U_point_on_surface | U_simplify
| U_simplify_preserve_topology | U_snap | U_voronoi_polygons.

Definition primitive_of (c : ufunc_call) : primitive :=
  match c with
  | Call_boundary _ _ => U_boundary
  | Call_buffer _ _ _ _ _ _ _ => U_buffer
  | Call_centroid _ => U_centroid
  | Call_convex_hull _ => U_convex_hull
  | Call_delaunay_triangles _ _ _ => U_delaunay_triangles
  | Call_envelope _ => U_envelope
  | Call_extract_unique_points _ => U_extract_unique_points
  | Call_point_on_surface _ => U_point_on_surface
  | Call_simplify _ _ => U_simplify
  | Call_simplify_preserve_topology _ _ => U_simplify_preserve_topology
  | Call_snap _ _ _ => U_snap
  | Call_voronoi_polygons _ _ _ _ => U_voronoi_polygons
  end.

(** The geometric algorithms proper, one per primitive, on one geometry.
    They belong to the engine behind [ufuncs], which the spec leaves out of
    scope, and stay abstract. *)
Class GEOS := {
  geos_boundary : Geometry -> result Geometry;
  geos_buffer :
    Geometry -> spec_float -> Z -> Z -> Z -> pyval -> bool -> result Geometry;
  geos_centroid : Geometry -> result Geometry;
  geos_convex_hull : Geometry -> result Geometry;
  geos_delaunay_triangles : Geometry -> spec_float -> bool -> result Geometry;
  geos_envelope : Geometry -> result Geometry;
  geos_extract_unique_points : Geometry -> result Geometry;
  geos_point_on_surface : Geometry -> result Geometry;
  geos_simplify : Geometry -> spec_float -> result Geometry;
  geos_simplify_preserve_topology : Geometry -> spec_float -> result Geometry;
  geos_snap : Geometry -> Geometry -> spec_float -> result Geometry;
  geos_voronoi_polygons :
    Geometry -> option Geometry -> spec_float -> bool -> result Geometry
}.

Module ufuncs.

(** Modelled from the spec: the array machinery of the absent [ufuncs]
    extension.  The first failing element fails the whole call, so no
    partial result is returned (spec, section 7). *)
Fixpoint mapM {A B} (f : A -> result B) (l : list A) : result (list B) :=
  match l with
  | [] => Ok []
  | a :: l' =>
      rbind (f a) (fun b => rbind (mapM f l') (fun bs => Ok (b :: bs)))
  end.

(** Modelled from the spec: element-wise application in [ufuncs]; the
    result has the shape of the argument and keeps its order (spec,
    section 4.3). *)
Definition elementwise {A B} (f : A -> result B) (x : ndarray A)
  : result (ndarray B) :=
  rbind (mapM f (data x)) (fun d => Ok (mk_ndarray (shape x) d)).

(** Modelled from the spec: equality of shapes, for [broadcast]. *)
Definition shape_eqb (s t : list nat) : bool :=
  if list_eq_dec Nat.eq_dec s t then true else false.

(** Modelled from the spec: broadcasting in [ufuncs].  A scalar broadcasts
    against any shape, equal shapes pair up position by position, and
    different shapes are an error (spec, section 9). *)
Definition broadcast {A B} (x : ndarray A) (y : ndarray B)
  : result (ndarray (A * B)) :=
  match as_scalar y with
  | Some b => Ok (mk_ndarray (shape x) (List.map (fun a => (a, b)) (data x)))
  | None =>
      match as_scalar x with
      | Some a =>
          Ok (mk_ndarray (shape y) (List.map (fun b => (a, b)) (data y)))
      | None =>
          if shape_eqb (shape x) (shape y)
          then Ok (mk_ndarray (shape x) (List.combine (data x) (data y)))
          else Raise (ValueError "operands could not be broadcast together")
      end
  end.

(** Modelled from the spec: the geometry types the spec calls "a line or
    point", those without area (spec, section 4.3 and section 8). *)
Definition is_line_or_point (t : geom_type) : bool :=
  match t with
  | POINT | MULTIPOINT | LINESTRING | LINEARRING | MULTILINESTRING => true
  | POLYGON | MULTIPOLYGON | GEOMETRYCOLLECTION => false
  end.

Section Primitives.
Context `{GEOS}.

(** Modelled from the spec: [ufuncs.boundary] on one geometry.  [Empty]
    for [Empty], a point, a linear ring and a multipoint; an error for a
    non-empty geometry collection (spec, section 4.3 and section 8). *)
Definition boundary1 (g : Geometry) : result Geometry :=
  match g with
  | Empty => Ok Empty
  | Geom (POINT | LINEARRING | MULTIPOINT) _ => Ok Empty
  | Geom GEOMETRYCOLLECTION _ =>
      Raise (KernelError "boundary of a geometry collection")
  | Geom _ _ => geos_boundary g
  end.

(** Modelled from the spec: [ufuncs.buffer] on one geometry.  [Empty]
    for [Empty], and for a line or point with a radius that is not
    positive (spec, section 4.3 and section 8). *)
Definition buffer1 (g : Geometry) (radius : spec_float)
    (quadsegs cap_style join_style : Z) (mitre_limit : pyval)
    (single_sided : bool) : result Geometry :=
  match g with
  | Empty => Ok Empty
  | Geom t _ =>
      if (is_line_or_point t && SFleb radius float_zero)%bool then Ok Empty
      else geos_buffer g radius quadsegs cap_style join_style mitre_limit
             single_sided
  end.

(** Modelled from the spec: [ufuncs.centroid] on one geometry; [Empty]
    for [Empty] (spec, section 4.3). *)
Definition centroid1 (g : Geometry) : result Geometry :=
  match g with
  | Empty => Ok Empty
  | Geom _ _ => geos_centroid g
  end.

(** Modelled from the spec: [ufuncs.convex_hull] on one geometry;
    [Empty] for [Empty] (spec, section 4.3). *)
Definition convex_hull1 (g : Geometry) : result Geometry :=
  match g with
  | Empty => Ok Empty
  | Geom _ _ => geos_convex_hull g
  end.

(** Modelled from the spec: the absent [ufuncs] extension as a whole.
    Every function applies its primitive element by element over the
    broadcast of its array arguments and threads the scalars through
    unchanged (spec, section 4.3).  The spec gives the keyword arguments
    of [boundary] no meaning; they do not reach the primitive. *)
Definition exec (c : ufunc_call) : result (ndarray Geometry) :=
  match c with
  | Call_boundary g _ => elementwise boundary1 g
  | Call_buffer g r q cs js ml ss =>
      rbind (broadcast g r)
        (elementwise (fun '(g, r) => buffer1 g r q cs js ml ss))
  | Call_centroid g => elementwise centroid1 g
  | Call_convex_hull g => elementwise convex_hull1 g
  | Call_delaunay_triangles g tol oe =>
      rbind (broadcast g tol) (fun gt =>
      rbind (broadcast gt oe)
        (elementwise (fun '(g, t, e) => geos_delaunay_triangles g t e)))
  | Call_envelope g => elementwise geos_envelope g
  | Call_extract_unique_points g => elementwise geos_extract_unique_points g
  | Call_point_on_surface g => elementwise geos_point_on_surface g
  | Call_simplify g tol =>
      rbind (broadcast g tol)
        (elementwise (fun '(g, t) => geos_simplify g t))
  | Call_simplify_preserve_topology g tol =>
      rbind (broadcast g tol)
        (elementwise (fun '(g, t) => geos_simplify_preserve_topology g t))
  | Call_snap g ref tol =>
      rbind (broadcast g ref) (fun gr =>
      rbind (broadcast gr tol)
        (elementwise (fun '(g, r, t) => geos_snap g r t)))
  | Call_voronoi_polygons g env tol oe =>
      rbind (broadcast g env) (fun ge =>
      rbind (broadcast ge tol) (fun get =>
      rbind (broadcast get oe)
        (elementwise
           (fun '(g, e, t, o) => geos_voronoi_polygons g e t o))))
  end.
End Primitives.
End ufuncs.


(** ** The call monad

    A computation of the module either returns or raises, and leaves the
    list of the [ufuncs] calls it made, in order. *)

Definition M (A : Type) : Type := (list ufunc_call * result A)%type.

Definition ret {A} (a : A) : M A := ([], Ok a).

Definition raise {A} (e : exn) : M A := ([], Raise e).

Definition lift {A} (r : result A) : M A := ([], r).

Definition bind {A B} (m : M A) (f : A -> M B) : M B :=
  match m with
  | (t, Ok a) => let (t', r) := f a in (t ++ t', r)
  | (t, Raise e) => (t, Raise e)
  end.

Definition trace {A} (m : M A) : list ufunc_call := fst m.

Definition outcome {A} (m : M A) : result A := snd m.

Notation "x <- m ;; k" := (bind m (fun x => k))
  (at level 61, m at next level, right associativity).

(** ** The functions of [pygeos.constructive] *)

Section Constructive.
Context `{Unicode} `{NumPy} `{GEOS}.

(** [ufuncs.f(...)]: the call is logged and the extension runs. *)
Definition call (c : ufunc_call) : M (ndarray Geometry) := ([c], ufuncs.exec c).

Definition boundary (geometry : ndarray Geometry) (kw : kwargs)
  : M (ndarray Geometry) :=
  call (Call_boundary geometry kw).

(** [if isinstance(cap_style, str):
       cap_style = BufferCapStyles[cap_style.upper()].value] *)
Definition resolve_cap_style (cap_style : pyval) : result pyval :=
  match cap_style with
  | PyStr s =>
      rbind (BufferCapStyles.getitem (upper s))
        (fun m => Ok (PyInt (BufferCapStyles.value m)))
  | _ => Ok cap_style
  end.

(** [if isinstance(join_style, str):
       join_style = BufferJoinStyles[join_style.upper()].value] *)
Definition resolve_join_style (join_style : pyval) : result pyval :=
  match join_style with
  | PyStr s =>
      rbind (BufferJoinStyles.getitem (upper s))
        (fun m => Ok (PyInt (BufferJoinStyles.value m)))
  | _ => Ok join_style
  end.

Definition buffer (geometry : ndarray Geometry) (radius : ndarray spec_float)
    (quadsegs cap_style join_style mitre_limit single_sided : pyval)
  : M (ndarray Geometry) :=
  cap_style <- lift (resolve_cap_style cap_style) ;;
  join_style <- lift (resolve_join_style join_style) ;;
  if negb (np_isscalar quadsegs) then
    raise (TypeError "quadsegs only accepts scalar values")
  else if negb (np_isscalar cap_style) then
    raise (TypeError "cap_style only accepts scalar values")
  else if negb (np_isscalar join_style) then
    raise (TypeError "join_style only accepts scalar values")
  else if negb (np_isscalar mitre_limit) then
    raise (TypeError "mitre_limit only accepts scalar values")
  else if negb (np_isscalar single_sided) then
    raise (TypeError "single_sided only accepts scalar values")
  else
    q <- lift (np_intc quadsegs) ;;
    c <- lift (np_intc cap_style) ;;
    j <- lift (np_intc join_style) ;;
    s <- lift (np_bool single_sided) ;;
    call (Call_buffer geometry radius q c j mitre_limit s).

Definition centroid (geometries : ndarray Geometry) : M (ndarray Geometry) :=
  call (Call_centroid geometries).

Definition convex_hull (geometries : ndarray Geometry) : M (ndarray Geometry) :=
  call (Call_convex_hull geometries).

Definition delaunay_triangles (geometry : ndarray Geometry)
    (tolerance : ndarray spec_float) (only_edges : ndarray bool)
  : M (ndarray Geometry) :=
  call (Call_delaunay_triangles geometry tolerance only_edges).

Definition envelope (geometries : ndarray Geometry) : M (ndarray Geometry) :=
  call (Call_envelope geometries).

Definition extract_unique_points (geometries : ndarray Geometry)
  : M (ndarray Geometry) :=
  call (Call_extract_unique_points geometries).

Definition point_on_surface (geometries : ndarray Geometry)
  : M (ndarray Geometry) :=
  call (Call_point_on_surface geometries).

(** [if preserve_topology:] tests the truth of whatever was passed. *)
Definition simplify (geometries : ndarray Geometry)
    (tolerance : ndarray spec_float) (preserve_topology : pyval)
  : M (ndarray Geometry) :=
  b <- lift (py_bool preserve_topology) ;;
  if b then call (Call_simplify_preserve_topology geometries tolerance)
  else call (Call_simplify geometries tolerance).

Definition snap (geometries reference : ndarray Geometry)
    (tolerance : ndarray spec_float) : M (ndarray Geometry) :=
  call (Call_snap geometries reference tolerance).

Definition voronoi_polygons (geometry : ndarray Geometry)
    (envelope : ndarray (option Geometry)) (tolerance : ndarray spec_float)
    (only_edges : ndarray bool) : M (ndarray Geometry) :=
  call (Call_voronoi_polygons geometry envelope tolerance only_edges).

End Constructive.

(** The default values of the keyword parameters. *)
Definition default_quadsegs : pyval := PyInt 8.
Definition default_cap_style : pyval := PyStr (str "round").
Definition default_join_style : pyval := PyStr (str "round").
Definition default_mitre_limit : pyval := PyFloat (float_of_Z 5).
Definition default_single_sided : pyval := PyBool false.
Definition default_tolerance : ndarray spec_float := scalar float_zero.
Definition default_only_edges : ndarray bool := scalar false.
Definition default_preserve_topology : pyval := PyBool false.
Definition default_envelope : ndarray (option Geometry) := scalar None.

(** ** A sample runtime

    Concrete tables for evaluating the functions: a few entries of the
    Unicode upper-case mapping, a NumPy that wraps out-of-range integers and
    rejects everything else, and an engine that answers with fixed
    geometries. *)

Definition sample_unicode_upper (c : N) : pystr :=
  match c with
  | 223%N => [83; 83]%N       (* U+00DF, sharp s *)
  | 305%N => [73]%N           (* U+0131, dotless i *)
  | 383%N => [83]%N           (* U+017F, long s *)
  | 64258%N => [70; 76]%N     (* U+FB02, ligature fl *)
  | _ => if (N.leb 224 c && N.leb c 254)%bool then [N.sub c 32] else [c]
  end.

#[export] Instance sample_unicode : Unicode :=
  {| unicode_upper := sample_unicode_upper |}.

Definition wrap_intc (z : Z) : Z := (z + 2 ^ 31) mod 2 ^ 32 - 2 ^ 31.

#[export] Instance sample_numpy : NumPy :=
  {| intc_other v :=
       match v with
       | PyInt z => Ok (wrap_intc z)
       | PyFloat _ => Raise (OverflowError "cannot convert float to integer")
       | PyStr _ => Raise (ValueError "invalid literal for int()")
       | _ => Raise (TypeError "int() argument must be a number")
       end |}.

Definition tag (label : string) (g : Geometry) : result Geometry :=
  match g with
  | Empty => Ok (Geom GEOMETRYCOLLECTION label)
  | Geom t body => Ok (Geom t (label ++ body))
  end.

#[export] Instance sample_geos : GEOS :=
  {| geos_boundary := tag "boundary ";
     geos_buffer g _ _ _ _ _ _ :=
       match g with
       | Empty => Ok Empty
       | Geom _ body => Ok (Geom POLYGON ("buffer " ++ body))
       end;
     geos_centroid g :=
       match g with
       | Empty => Ok Empty
       | Geom _ body => Ok (Geom POINT ("centroid " ++ body))
       end;
     geos_convex_hull := tag "convex_hull ";
     geos_delaunay_triangles g _ _ := tag "delaunay_triangles " g;
     geos_envelope := tag "envelope ";
     geos_extract_unique_points := tag "extract_unique_points ";
     geos_point_on_surface := tag "point_on_surface ";
     geos_simplify g _ := tag "simplify " g;
     geos_simplify_preserve_topology g _ := tag "simplify_preserve_topology " g;
     geos_snap g _ _ := tag "snap " g;
     geos_voronoi_polygons g _ _ _ :=
       match g with
       | Geom GEOMETRYCOLLECTION _ =>
           Raise (KernelError "unsupported geometry type")
       | _ => tag "voronoi_polygons " g
       end |}.


(** Sample arguments. *)
Definition point_10_10 : ndarray Geometry := scalar (Geom POINT "(10 10)").

Definition line_10_20 : ndarray Geometry :=
  scalar (Geom LINESTRING "(10 10, 20 10)").

Definition an_array : pyval := PyNdarray [2%nat] [PyInt 8; PyInt 16].

Definition three_geometries : ndarray Geometry :=
  mk_ndarray [3%nat]
    [Geom POINT "(10 10)"; Empty; Geom POLYGON "((0 0, 10 0, 10 10, 0 0))"].

Definition three_buffers : ndarray Geometry :=
  mk_ndarray [3%nat]
    [Empty; Empty; Geom POLYGON "buffer ((0 0, 10 0, 10 10, 0 0))"].

(** ** Operations with their scalar parameters

    A call of a function of the module on a geometry array, every other
    argument being a single value. *)

Inductive op :=
| Op_boundary (kw : kwargs)
| Op_buffer (radius : spec_float)
    (quadsegs cap_style join_style mitre_limit single_sided : pyval)
| Op_centroid
| Op_convex_hull
| Op_delaunay_triangles (tolerance : spec_float) (only_edges : bool)
| Op_envelope
| Op_extract_unique_points
| Op_point_on_surface
| Op_simplify (tolerance : spec_float) (preserve_topology : pyval)
| Op_snap (reference : Geometry) (tolerance : spec_float)
| Op_voronoi_polygons (envelope : option Geometry) (tolerance : spec_float)
    (only_edges : bool).

Definition apply `{Unicode} `{NumPy} `{GEOS} (o : op) (A : ndarray Geometry)
  : M (ndarray Geometry) :=
  match o with
  | Op_boundary kw => boundary A kw
  | Op_buffer r q c j m s => buffer A (scalar r) q c j m s
  | Op_centroid => centroid A
  | Op_convex_hull => convex_hull A
  | Op_delaunay_triangles t e => delaunay_triangles A (scalar t) (scalar e)
  | Op_envelope => envelope A
  | Op_extract_unique_points => extract_unique_points A
  | Op_point_on_surface => point_on_surface A
  | Op_simplify t p => simplify A (scalar t) p
  | Op_snap ref t => snap A (scalar ref) (scalar t)
  | Op_voronoi_polygons env t e =>
      voronoi_polygons A (scalar env) (scalar t) (scalar e)
  end.

(** ** Predicates used in the statements *)

(** A style argument that is a string whose upper-cased form is not a
    member name. *)
Definition unrecognized_cap `{Unicode} (v : pyval) : bool :=
  match v with
  | PyStr s =>
      match BufferCapStyles.getitem (upper s) with
      | Ok _ => false
      | Raise _ => true
      end
  | _ => false
  end.

Definition unrecognized_join `{Unicode} (v : pyval) : bool :=
  match v with
  | PyStr s =>
      match BufferJoinStyles.getitem (upper s) with
      | Ok _ => false
      | Raise _ => true
      end
  | _ => false
  end.

(** The string [buffer] fails on: the cap style if it is unrecognized,
    otherwise the join style if that one is. *)
Definition offending_style `{Unicode} (cap_style join_style : pyval)
  : option pystr :=
  match cap_style, join_style with
  | PyStr s, _ =>
      if unrecognized_cap cap_style then Some s
      else match join_style with
           | PyStr s' => if unrecognized_join join_style then Some s' else None
           | _ => None
           end
  | _, PyStr s' => if unrecognized_join join_style then Some s' else None
  | _, _ => None
  end.

(** The first parameter, in the order of the checks, that is not a scalar. *)
Fixpoint first_nonscalar (params : list (string * pyval)) : option string :=
  match params with
  | [] => None
  | (name, v) :: rest =>
      if np_isscalar v then first_nonscalar rest else Some name
  end.

Definition scalar_only_params (quadsegs cap_style join_style mitre_limit
    single_sided : pyval) : list (string * pyval) :=
  [("quadsegs", quadsegs); ("cap_style", cap_style);
   ("join_style", join_style); ("mitre_limit", mitre_limit);
   ("single_sided", single_sided)]%string.

(** The parameters pass every check of [buffer], and are coerced to
    [zq], [zc], [zj] and [b]. *)
Definition accepted `{Unicode} `{NumPy}
    (quadsegs cap_style join_style mitre_limit single_sided : pyval)
    (zq zc zj : Z) (b : bool) : Prop :=
  exists c' j',
    resolve_cap_style cap_style = Ok c' /\
    resolve_join_style join_style = Ok j' /\
    np_isscalar quadsegs = true /\
    np_isscalar c' = true /\
    np_isscalar j' = true /\
    np_isscalar mitre_limit = true /\
    np_isscalar single_sided = true /\
    np_intc quadsegs = Ok zq /\
    np_intc c' = Ok zc /\
    np_intc j' = Ok zj /\
    np_bool single_sided = Ok b.

(** The lower-case spellings the docstring of [buffer] lists. *)
Definition cap_keyword (m : BufferCapStyles.t) : pystr :=
  match m with
  | BufferCapStyles.ROUND => str "round"
  | BufferCapStyles.FLAT => str "flat"
  | BufferCapStyles.SQUARE => str "square"
  end.

Definition join_keyword (m : BufferJoinStyles.t) : pystr :=
  match m with
  | BufferJoinStyles.ROUND => str "round"
  | BufferJoinStyles.MITRE => str "mitre"
  | BufferJoinStyles.BEVEL => str "bevel"
  end.

(** [v] is a way of writing the style [m]: its name in any casing, or its
    integer code. *)
Definition cap_spelling (v : pyval) (m : BufferCapStyles.t) : bool :=
  match v with
  | PyStr s => eqb_nocase s (BufferCapStyles.name m)
  | PyInt z => z =? BufferCapStyles.value m
  | _ => false
  end.

Definition join_spelling (v : pyval) (m : BufferJoinStyles.t) : bool :=
  match v with
  | PyStr s => eqb_nocase s (BufferJoinStyles.name m)
  | PyInt z => z =? BufferJoinStyles.value m
  | _ => false
  end.

(** The geometry argument of a call. *)
Definition call_geometry (c : ufunc_call) : ndarray Geometry :=
  match c with
  | Call_boundary g _ => g
  | Call_buffer g _ _ _ _ _ _ => g
  | Call_centroid g => g
  | Call_convex_hull g => g
  | Call_delaunay_triangles g _ _ => g
  | Call_envelope g => g
  | Call_extract_unique_points g => g
  | Call_point_on_surface g => g
  | Call_simplify g _ => g
  | Call_simplify_preserve_topology g _ => g
  | Call_snap g _ _ => g
  | Call_voronoi_polygons g _ _ _ => g
  end.

(** The attributes of [ufuncs] that appear in the body of each function. *)
Definition op_primitives (o : op) : list primitive :=
  match o with
  | Op_boundary _ => [U_boundary]
  | Op_buffer _ _ _ _ _ _ => [U_buffer]
  | Op_centroid => [U_centroid]
  | Op_convex_hull => [U_convex_hull]
  | Op_delaunay_triangles _ _ => [U_delaunay_triangles]
  | Op_envelope => [U_envelope]
  | Op_extract_unique_points => [U_extract_unique_points]
  | Op_point_on_surface => [U_point_on_surface]
  | Op_simplify _ _ => [U_simplify_preserve_topology; U_simplify]
  | Op_snap _ _ => [U_snap]
  | Op_voronoi_polygons _ _ _ => [U_voronoi_polygons]
  end.

(** The functions with statements of their own before the call; the other
    nine are a single [return ufuncs.f(...)]. *)
Definition has_checks (o : op) : bool :=
  match o with
  | Op_buffer _ _ _ _ _ _ | Op_simplify _ _ => true
  | _ => false
  end.

(** The double 8.5. *)
Definition float_8_5 : spec_float := binary_normalize 53 1024 17 (-1) false.

(** The integer part of the number a Python value denotes, rounded towards
    zero: the value itself when it denotes an integer. *)
Definition trunc_value (v : pyval) : option Z :=
  match v with
  | PyBool b => Some (Z.b2z b)
  | PyInt z => Some z
  | PyCapStyle m => Some (BufferCapStyles.value m)
  | PyJoinStyle m => Some (BufferJoinStyles.value m)
  | PyFloat f => float_trunc f
  | _ => None
  end.

(** * Properties *)

(** ** Strings and enumeration lookup *)

Lemma pystr_eqb_eq (s t : pystr) : pystr_eqb s t = true <-> s = t.
Proof.
  revert t; induction s as [|a s IH]; intros [|b t]; simpl;
    try (split; [discriminate | congruence]); [tauto|].
  rewrite andb_true_iff, N.eqb_eq, IH. split.
  - intros [-> ->]; reflexivity.
  - intros E; injection E; auto.
Qed.

Lemma pystr_eqb_refl (s : pystr) : pystr_eqb s s = true.
Proof. apply pystr_eqb_eq; reflexivity. Qed.

Section StringFacts.
Context `{Unicode}.

Lemma cp_eqb_nocase_upper (a b : N) :
  cp_eqb_nocase a b = true -> upper_cp a = upper_cp b.
Proof.
  unfold cp_eqb_nocase, upper_cp. rewrite orb_true_iff, !andb_true_iff.
  intros [E | [[La Lb] E]].
  - apply N.eqb_eq in E; subst; reflexivity.
  - rewrite La, Lb. apply N.eqb_eq in E. rewrite E; reflexivity.
Qed.

Lemma eqb_nocase_upper (s t : pystr) :
  eqb_nocase s t = true -> upper s = upper t.
Proof.
  revert t; induction s as [|a s IH]; intros [|b t]; simpl;
    try discriminate; [reflexivity|].
  rewrite andb_true_iff. intros [E1 E2]. unfold upper in *; simpl.
  rewrite (cp_eqb_nocase_upper _ _ E1), (IH _ E2); reflexivity.
Qed.

Lemma upper_cap_name (m : BufferCapStyles.t) :
  upper (BufferCapStyles.name m) = BufferCapStyles.name m.
Proof. destruct m; reflexivity. Qed.

Lemma upper_join_name (m : BufferJoinStyles.t) :
  upper (BufferJoinStyles.name m) = BufferJoinStyles.name m.
Proof. destruct m; reflexivity. Qed.

End StringFacts.

Lemma cap_getitem_name (m : BufferCapStyles.t) :
  BufferCapStyles.getitem (BufferCapStyles.name m) = Ok m.
Proof. destruct m; reflexivity. Qed.

Lemma join_getitem_name (m : BufferJoinStyles.t) :
  BufferJoinStyles.getitem (BufferJoinStyles.name m) = Ok m.
Proof. destruct m; reflexivity. Qed.

Lemma cap_getitem_Ok (key : pystr) (m : BufferCapStyles.t) :
  BufferCapStyles.getitem key = Ok m -> key = BufferCapStyles.name m.
Proof.
  unfold BufferCapStyles.getitem.
  destruct (find _ _) as [m'|] eqn:F; [|discriminate].
  intros E; injection E as <-. apply find_some in F as [_ F].
  symmetry; apply pystr_eqb_eq; exact F.
Qed.

Lemma join_getitem_Ok (key : pystr) (m : BufferJoinStyles.t) :
  BufferJoinStyles.getitem key = Ok m -> key = BufferJoinStyles.name m.
Proof.
  unfold BufferJoinStyles.getitem.
  destruct (find _ _) as [m'|] eqn:F; [|discriminate].
  intros E; injection E as <-. apply find_some in F as [_ F].
  symmetry; apply pystr_eqb_eq; exact F.
Qed.

Lemma cap_getitem_Raise (key : pystr) (e : exn) :
  BufferCapStyles.getitem key = Raise e -> e = KeyError key.
Proof.
  unfold BufferCapStyles.getitem.
  destruct (find _ _); [discriminate | congruence].
Qed.

Lemma join_getitem_Raise (key : pystr) (e : exn) :
  BufferJoinStyles.getitem key = Raise e -> e = KeyError key.
Proof.
  unfold BufferJoinStyles.getitem.
  destruct (find _ _); [discriminate | congruence].
Qed.

(** ** The call monad *)

Lemma bind_lift_Ok {A B} (a : A) (f : A -> M B) : bind (lift (Ok a)) f = f a.
Proof. unfold bind, lift. destruct (f a); reflexivity. Qed.

Lemma bind_lift_Raise {A B} (e : exn) (f : A -> M B) :
  bind (lift (Raise e)) f = ([], Raise e).
Proof. reflexivity. Qed.

(** ** What [buffer] does with its parameters *)

(** Runs the straight-line part of a function body: binds of known outcomes
    and tests of known booleans. *)
Ltac run_buffer :=
  repeat first
    [ rewrite bind_lift_Ok
    | rewrite bind_lift_Raise
    | progress cbv beta iota
    | progress simpl negb
    | match goal with
      | E : ?x = _ |- context [?x] => rewrite E
      end ];
  try reflexivity.

Section BufferFacts.
Context `{Unicode} `{NumPy} `{GEOS}.

Lemma resolve_cap_style_fix (c c' : pyval) :
  resolve_cap_style c = Ok c' ->
  resolve_cap_style c' = Ok c' /\ np_isscalar c' = np_isscalar c.
Proof.
  destruct c; simpl; try (intros E; injection E as <-; split; reflexivity).
  destruct (BufferCapStyles.getitem (upper s)); simpl; [|discriminate].
  intros E; injection E as <-; split; reflexivity.
Qed.

Lemma resolve_join_style_fix (j j' : pyval) :
  resolve_join_style j = Ok j' ->
  resolve_join_style j' = Ok j' /\ np_isscalar j' = np_isscalar j.
Proof.
  destruct j; simpl; try (intros E; injection E as <-; split; reflexivity).
  destruct (BufferJoinStyles.getitem (upper s)); simpl; [|discriminate].
  intros E; injection E as <-; split; reflexivity.
Qed.

Lemma unrecognized_cap_false (c : pyval) :
  unrecognized_cap c = false -> exists c', resolve_cap_style c = Ok c'.
Proof.
  destruct c; simpl; eauto.
  destruct (BufferCapStyles.getitem (upper s)); simpl; [eauto | discriminate].
Qed.

Lemma unrecognized_join_false (j : pyval) :
  unrecognized_join j = false -> exists j', resolve_join_style j = Ok j'.
Proof.
  destruct j; simpl; eauto.
  destruct (BufferJoinStyles.getitem (upper s)); simpl; [eauto | discriminate].
Qed.

Lemma unrecognized_cap_true (c : pyval) :
  unrecognized_cap c = true ->
  exists s, c = PyStr s /\ resolve_cap_style c = Raise (KeyError (upper s)).
Proof.
  destruct c; simpl; try discriminate.
  destruct (BufferCapStyles.getitem (upper s)) eqn:G; [discriminate|].
  intros _. exists s. apply cap_getitem_Raise in G. subst. auto.
Qed.

Lemma unrecognized_join_true (j : pyval) :
  unrecognized_join j = true ->
  exists s, j = PyStr s /\ resolve_join_style j = Raise (KeyError (upper s)).
Proof.
  destruct j; simpl; try discriminate.
  destruct (BufferJoinStyles.getitem (upper s)) eqn:G; [discriminate|].
  intros _. exists s. apply join_getitem_Raise in G. subst. auto.
Qed.

(** Only the resolved styles matter. *)
Lemma buffer_resolved g r q c j m s c' j' :
  resolve_cap_style c = Ok c' ->
  resolve_join_style j = Ok j' ->
  buffer g r q c j m s = buffer g r q c' j' m s.
Proof.
  intros Hc Hj.
  destruct (resolve_cap_style_fix _ Hc) as [Hc' _].
  destruct (resolve_join_style_fix _ Hj) as [Hj' _].
  unfold buffer. rewrite Hc, Hj, Hc', Hj'. reflexivity.
Qed.

Lemma buffer_cap_raises g r q c j m s e :
  resolve_cap_style c = Raise e -> buffer g r q c j m s = ([], Raise e).
Proof. intros Hc. unfold buffer. rewrite Hc. reflexivity. Qed.

Lemma buffer_join_raises g r q c j m s c' e :
  resolve_cap_style c = Ok c' ->
  resolve_join_style j = Raise e ->
  buffer g r q c j m s = ([], Raise e).
Proof.
  intros Hc Hj. unfold buffer. rewrite Hc, bind_lift_Ok, Hj. reflexivity.
Qed.

Lemma offending_style_Some c j :
  unrecognized_cap c = true \/ unrecognized_join j = true ->
  exists bad, offending_style c j = Some bad.
Proof.
  intros [U | U].
  - destruct (unrecognized_cap_true _ U) as (s & -> & _).
    unfold offending_style. rewrite U. eauto.
  - destruct (unrecognized_join_true _ U) as (s & -> & _).
    unfold offending_style.
    destruct c; rewrite ?U; eauto.
    destruct (unrecognized_cap (PyStr s0)); eauto.
Qed.

Lemma buffer_unrecognized g r q c j m s bad :
  offending_style c j = Some bad ->
  buffer g r q c j m s = ([], Raise (KeyError (upper bad))).
Proof.
  intros O.
  destruct (unrecognized_cap c) eqn:Uc.
  - destruct (unrecognized_cap_true _ Uc) as (s' & -> & R).
    unfold offending_style in O. rewrite Uc in O. injection O as <-.
    apply buffer_cap_raises; exact R.
  - destruct (unrecognized_cap_false _ Uc) as (c' & Rc).
    assert (Oj : exists s', j = PyStr s' /\ unrecognized_join j = true /\ bad = s').
    { unfold offending_style in O.
      destruct c, j; cbv beta iota in O; try rewrite Uc in O;
        cbv beta iota in O; try discriminate;
        match type of O with
        | (if ?u then _ else _) = _ =>
            destruct u eqn:Uj; [injection O as <-; eauto | discriminate]
        end. }
    destruct Oj as (s' & -> & Uj & ->).
    destruct (unrecognized_join_true _ Uj) as (s'' & E & R).
    injection E as <-.
    eapply buffer_join_raises; eassumption.
Qed.

Lemma buffer_accepted g r q c j m s zq zc zj b :
  accepted q c j m s zq zc zj b ->
  buffer g r q c j m s = call (Call_buffer g r zq zc zj m b).
Proof.
  intros (c' & j' & Hc & Hj & Sq & Sc & Sj & Sm & Ss & Iq & Ic & Ij & Bs).
  unfold buffer.
  rewrite Hc, bind_lift_Ok, Hj, bind_lift_Ok, Sq, Sc, Sj, Sm, Ss. simpl negb.
  cbv iota.
  rewrite Iq, bind_lift_Ok, Ic, bind_lift_Ok, Ij, bind_lift_Ok, Bs, bind_lift_Ok.
  reflexivity.
Qed.

Lemma buffer_nonscalar g r q c j m s name :
  unrecognized_cap c = false ->
  unrecognized_join j = false ->
  first_nonscalar (scalar_only_params q c j m s) = Some name ->
  buffer g r q c j m s
  = ([], Raise (TypeError (name ++ " only accepts scalar values"))).
Proof.
  intros Uc Uj F.
  destruct (unrecognized_cap_false _ Uc) as (c' & Hc).
  destruct (unrecognized_join_false _ Uj) as (j' & Hj).
  destruct (resolve_cap_style_fix _ Hc) as [_ Sc].
  destruct (resolve_join_style_fix _ Hj) as [_ Sj].
  unfold buffer. rewrite Hc, bind_lift_Ok, Hj, bind_lift_Ok, Sc, Sj.
  simpl in F.
  destruct (np_isscalar q); [|injection F as <-; reflexivity].
  destruct (np_isscalar c); [|injection F as <-; reflexivity].
  destruct (np_isscalar j); [|injection F as <-; reflexivity].
  destruct (np_isscalar m); [|injection F as <-; reflexivity].
  destruct (np_isscalar s); [discriminate|injection F as <-; reflexivity].
Qed.

(** The parameters alone decide whether [buffer] raises before the call. *)
Lemma buffer_dispatch q c j m s :
  (exists e, forall g r, buffer g r q c j m s = ([], Raise e)) \/
  (exists zq zc zj b, accepted q c j m s zq zc zj b).
Proof.
  destruct (resolve_cap_style c) as [c'|e] eqn:Hc;
    [|left; exists e; intros; apply buffer_cap_raises; assumption].
  destruct (resolve_join_style j) as [j'|e] eqn:Hj;
    [|left; exists e; intros; eapply buffer_join_raises; eassumption].
  unfold accepted, buffer. rewrite Hc, Hj.
  destruct (np_isscalar q) eqn:Sq; [|left; eexists; intros; run_buffer].
  destruct (np_isscalar c') eqn:Sc; [|left; eexists; intros; run_buffer].
  destruct (np_isscalar j') eqn:Sj; [|left; eexists; intros; run_buffer].
  destruct (np_isscalar m) eqn:Sm; [|left; eexists; intros; run_buffer].
  destruct (np_isscalar s) eqn:Ss; [|left; eexists; intros; run_buffer].
  destruct (np_intc q) as [zq|e] eqn:Iq; [|left; exists e; intros; run_buffer].
  destruct (np_intc c') as [zc|e] eqn:Ic; [|left; exists e; intros; run_buffer].
  destruct (np_intc j') as [zj|e] eqn:Ij; [|left; exists e; intros; run_buffer].
  destruct (np_bool s) as [b|e] eqn:Bs; [|left; exists e; intros; run_buffer].
  right. exists zq, zc, zj, b, c', j'. repeat split; auto.
Qed.

End BufferFacts.

(** ** Element-wise application *)

Section ElementwiseFacts.
Context {A B : Type} (f : A -> result B).

Lemma mapM_length (l : list A) (l' : list B) :
  ufuncs.mapM f l = Ok l' -> List.length l' = List.length l.
Proof.
  revert l'; induction l as [|a l IH]; simpl; intros l' E.
  - injection E as <-; reflexivity.
  - destruct (f a); simpl in E; [|discriminate].
    destruct (ufuncs.mapM f l); simpl in E; [|discriminate].
    injection E as <-. simpl. rewrite (IH _ eq_refl); reflexivity.
Qed.

Lemma mapM_nth_error (l : list A) (l' : list B) (i : nat) (a : A) :
  ufuncs.mapM f l = Ok l' ->
  nth_error l i = Some a ->
  exists b, nth_error l' i = Some b /\ f a = Ok b.
Proof.
  revert l' i; induction l as [|x l IH]; simpl; intros l' i E N.
  - destruct i; discriminate.
  - destruct (f x) as [y|] eqn:Fx; simpl in E; [|discriminate].
    destruct (ufuncs.mapM f l) as [ys|]; simpl in E; [|discriminate].
    injection E as <-.
    destruct i as [|i]; simpl in *.
    + injection N as <-. eauto.
    + eapply IH; eauto.
Qed.

Lemma elementwise_scalar (a : A) (b : B) :
  f a = Ok b -> ufuncs.elementwise f (scalar a) = Ok (scalar b).
Proof. intros E. unfold ufuncs.elementwise; simpl. rewrite E. reflexivity. Qed.

Lemma elementwise_items (x : ndarray A) (y : ndarray B) :
  ufuncs.elementwise f x = Ok y ->
  shape y = shape x /\
  size y = size x /\
  forall i a, nth_error (data x) i = Some a ->
    exists b, nth_error (data y) i = Some b /\
              ufuncs.elementwise f (scalar a) = Ok (scalar b).
Proof.
  unfold ufuncs.elementwise, size.
  destruct (ufuncs.mapM f (data x)) as [d|] eqn:E; simpl; [|discriminate].
  intros Y; injection Y as <-; simpl. repeat split.
  - eapply mapM_length; eauto.
  - intros i a N. destruct (mapM_nth_error _ i E N) as (b & Nb & Fb).
    exists b; split; [assumption | apply elementwise_scalar; assumption].
Qed.

End ElementwiseFacts.

Lemma mapM_succeeds {A B} (f : A -> result B) (l : list A) :
  (forall a, In a l -> exists b, f a = Ok b) ->
  exists l', ufuncs.mapM f l = Ok l'.
Proof.
  induction l as [|x l IH]; simpl; intros All; [eauto|].
  destruct (All x (or_introl eq_refl)) as (y & Fx).
  destruct IH as (ys & E); [intros a I; apply All; right; exact I|].
  rewrite Fx, E. simpl. eauto.
Qed.

Lemma mapM_map {A B C} (f : B -> result C) (g : A -> B) (l : list A) :
  ufuncs.mapM f (List.map g l) = ufuncs.mapM (fun a => f (g a)) l.
Proof.
  induction l as [|a l IH]; simpl; [reflexivity|]. rewrite IH; reflexivity.
Qed.

Lemma broadcast_scalar {A B} (x : ndarray A) (p : B) :
  ufuncs.broadcast x (scalar p)
  = Ok (mk_ndarray (shape x) (List.map (fun a => (a, p)) (data x))).
Proof. reflexivity. Qed.

Lemma elementwise_broadcast_scalar {A B C} (f : A * B -> result C)
    (x : ndarray A) (p : B) :
  rbind (ufuncs.broadcast x (scalar p)) (ufuncs.elementwise f)
  = ufuncs.elementwise (fun a => f (a, p)) x.
Proof.
  rewrite broadcast_scalar. unfold rbind, ufuncs.elementwise; simpl.
  rewrite mapM_map. reflexivity.
Qed.

Section OperationFacts.
Context `{Unicode} `{NumPy} `{GEOS}.

Lemma simplify_dispatch (p : pyval) :
  (exists e, forall A t, simplify A t p = ([], Raise e)) \/
  (forall A t, simplify A t p = call (Call_simplify_preserve_topology A t)) \/
  (forall A t, simplify A t p = call (Call_simplify A t)).
Proof.
  unfold simplify. destruct (py_bool p) as [b|e]; [destruct b|].
  - right; left; intros; rewrite bind_lift_Ok; reflexivity.
  - right; right; intros; rewrite bind_lift_Ok; reflexivity.
  - left; exists e; intros; reflexivity.
Qed.

(** Every operation either rejects its parameters whatever the geometries
    are, or maps one function over the geometry array. *)
Lemma apply_pointwise (o : op) :
  (exists e, forall A, apply o A = ([], Raise e)) \/
  (exists f, forall A, outcome (apply o A) = ufuncs.elementwise f A).
Proof.
  destruct o; simpl;
    try (right; eexists; intros A; unfold outcome; simpl;
         repeat rewrite broadcast_scalar; simpl rbind;
         unfold ufuncs.elementwise; simpl; rewrite ?mapM_map;
         reflexivity).
  - (* buffer *)
    destruct (buffer_dispatch quadsegs cap_style join_style mitre_limit
                single_sided) as [(e & E) | (zq & zc & zj & b & Acc)].
    + left; exists e; intros; apply E.
    + right.
      exists (fun g => ufuncs.buffer1 g radius zq zc zj mitre_limit b).
      intros A. rewrite (buffer_accepted _ _ Acc).
      unfold outcome, call; simpl.
      apply (elementwise_broadcast_scalar
               (fun '(g, r) => ufuncs.buffer1 g r zq zc zj mitre_limit b)).
  - (* simplify *)
    destruct (simplify_dispatch preserve_topology) as [(e & E) | [E | E]].
    + left; exists e; intros; apply E.
    + right. exists (fun g => geos_simplify_preserve_topology g tolerance).
      intros A. rewrite E. unfold outcome, call; simpl.
      apply (elementwise_broadcast_scalar
               (fun '(g, t) => geos_simplify_preserve_topology g t)).
    + right. exists (fun g => geos_simplify g tolerance).
      intros A. rewrite E. unfold outcome, call; simpl.
      apply (elementwise_broadcast_scalar
               (fun '(g, t) => geos_simplify g t)).
Qed.

Lemma offending_style_None c j :
  offending_style c j = None <->
  unrecognized_cap c = false /\ unrecognized_join j = false.
Proof.
  unfold offending_style. split.
  - destruct c, j; cbv beta iota;
      repeat match goal with
             | |- context [if ?u then _ else _] => destruct u eqn:?
             end; try discriminate; auto.
  - intros [Uc Uj].
    destruct c, j; cbv beta iota; rewrite ?Uc, ?Uj; reflexivity.
Qed.

Lemma int_value_intc (v : pyval) (z : Z) :
  int_value v = Some z ->
  in_intc_range z = true ->
  np_intc v = Ok z /\ np_isscalar v = true.
Proof.
  destruct v; simpl; try discriminate; intros E R.
  - injection E as <-; auto.
  - injection E as <-; rewrite R; auto.
  - split; [|reflexivity].
    assert (T : float_trunc f = Some z).
    { destruct f as [| | |s m e]; simpl in *; try discriminate; auto.
      destruct (0 <=? e); [assumption|].
      destruct (Z.pos m mod 2 ^ (- e) =? 0); [assumption | discriminate]. }
    rewrite T, R. reflexivity.
  - injection E as <-; auto.
  - injection E as <-; auto.
Qed.

Lemma float_int_value_trunc (f : spec_float) (z : Z) :
  float_int_value f = Some z -> float_trunc f = Some z.
Proof.
  destruct f as [| | |s m e]; simpl; try discriminate; auto.
  destruct (0 <=? e); [auto|].
  destruct (Z.pos m mod 2 ^ (- e) =? 0); [auto | discriminate].
Qed.

Lemma int_value_trunc (v : pyval) (z : Z) :
  int_value v = Some z -> trunc_value v = Some z.
Proof.
  destruct v; simpl; try discriminate; auto.
  apply float_int_value_trunc.
Qed.

Lemma trunc_value_intc (v : pyval) (z : Z) :
  trunc_value v = Some z ->
  in_intc_range z = true ->
  np_intc v = Ok z /\ np_isscalar v = true.
Proof.
  destruct v; simpl; try discriminate; intros E R.
  - injection E as <-; auto.
  - injection E as <-; rewrite R; auto.
  - rewrite E, R. auto.
  - injection E as <-; auto.
  - injection E as <-; auto.
Qed.

Lemma scalar_has_truth (v : pyval) :
  np_isscalar v = true -> exists b, py_bool v = Ok b.
Proof. destruct v; try discriminate; simpl; eauto. Qed.

End OperationFacts.

(** ** Style names and integer codes *)

Section Styles.
Context `{Unicode} `{NumPy} `{GEOS}.

Lemma resolve_cap_nocase (s : pystr) (m : BufferCapStyles.t) :
  eqb_nocase s (BufferCapStyles.name m) = true ->
  resolve_cap_style (PyStr s) = Ok (PyInt (BufferCapStyles.value m)).
Proof.
  intros E. simpl.
  rewrite (eqb_nocase_upper _ _ E), upper_cap_name, cap_getitem_name.
  reflexivity.
Qed.

Lemma resolve_join_nocase (s : pystr) (m : BufferJoinStyles.t) :
  eqb_nocase s (BufferJoinStyles.name m) = true ->
  resolve_join_style (PyStr s) = Ok (PyInt (BufferJoinStyles.value m)).
Proof.
  intros E. simpl.
  rewrite (eqb_nocase_upper _ _ E), upper_join_name, join_getitem_name.
  reflexivity.
Qed.

(** Replacing a recognised cap-style string by its code changes nothing. *)
Lemma buffer_cap_string g r q s j m ss (cap : BufferCapStyles.t) :
  eqb_nocase s (BufferCapStyles.name cap) = true ->
  buffer g r q (PyStr s) j m ss
  = buffer g r q (PyInt (BufferCapStyles.value cap)) j m ss.
Proof.
  intros E. pose proof (resolve_cap_nocase _ _ E) as R.
  unfold buffer. rewrite R. reflexivity.
Qed.

Lemma buffer_join_string g r q c s m ss (join : BufferJoinStyles.t) :
  eqb_nocase s (BufferJoinStyles.name join) = true ->
  buffer g r q c (PyStr s) m ss
  = buffer g r q c (PyInt (BufferJoinStyles.value join)) m ss.
Proof.
  intros E. pose proof (resolve_join_nocase _ _ E) as R.
  unfold buffer. rewrite R. reflexivity.
Qed.

(** C1.  For every geometry, radius and remaining arguments, passing a cap
    or join style by name ("round", "flat", "square"; "round", "mitre",
    "bevel", or the member names ROUND, ...) gives exactly what passing the
    integer code gives (ROUND=1, FLAT=2, SQUARE=3; ROUND=1, MITRE=2,
    BEVEL=3): the same outcome and the same list of ufunc calls. *)
Theorem buffer_style_name_equals_code :
  forall g r q m ss (cap : BufferCapStyles.t) (join : BufferJoinStyles.t),
    (forall j,
        buffer g r q (PyStr (cap_keyword cap)) j m ss
        = buffer g r q (PyInt (BufferCapStyles.value cap)) j m ss /\
        buffer g r q (PyStr (BufferCapStyles.name cap)) j m ss
        = buffer g r q (PyInt (BufferCapStyles.value cap)) j m ss) /\
    (forall c,
        buffer g r q c (PyStr (join_keyword join)) m ss
        = buffer g r q c (PyInt (BufferJoinStyles.value join)) m ss /\
        buffer g r q c (PyStr (BufferJoinStyles.name join)) m ss
        = buffer g r q c (PyInt (BufferJoinStyles.value join)) m ss) /\
    buffer g r q (PyStr (cap_keyword cap)) (PyStr (join_keyword join)) m ss
    = buffer g r q (PyInt (BufferCapStyles.value cap))
        (PyInt (BufferJoinStyles.value join)) m ss /\
    List.map BufferCapStyles.value BufferCapStyles.members = [1; 2; 3] /\
    List.map BufferJoinStyles.value BufferJoinStyles.members = [1; 2; 3].
Proof.
  intros g r q m ss cap join.
  assert (Ck : eqb_nocase (cap_keyword cap) (BufferCapStyles.name cap) = true)
    by (destruct cap; reflexivity).
  assert (Cn : eqb_nocase (BufferCapStyles.name cap) (BufferCapStyles.name cap)
               = true) by (destruct cap; reflexivity).
  assert (Jk : eqb_nocase (join_keyword join) (BufferJoinStyles.name join)
               = true) by (destruct join; reflexivity).
  assert (Jn : eqb_nocase (BufferJoinStyles.name join)
                 (BufferJoinStyles.name join) = true)
    by (destruct join; reflexivity).
  repeat split.
  - apply buffer_cap_string; assumption.
  - apply buffer_cap_string; assumption.
  - apply buffer_join_string; assumption.
  - apply buffer_join_string; assumption.
  - rewrite (buffer_cap_string _ _ _ _ _ _ _ _ Ck).
    apply buffer_join_string; assumption.
Qed.

Lemma cap_spelling_resolve (c : pyval) (cap : BufferCapStyles.t) :
  cap_spelling c cap = true ->
  resolve_cap_style c = Ok (PyInt (BufferCapStyles.value cap)).
Proof.
  destruct c; try discriminate; intros E.
  - simpl in E. apply Z.eqb_eq in E. subst. reflexivity.
  - apply resolve_cap_nocase; exact E.
Qed.

Lemma join_spelling_resolve (j : pyval) (join : BufferJoinStyles.t) :
  join_spelling j join = true ->
  resolve_join_style j = Ok (PyInt (BufferJoinStyles.value join)).
Proof.
  destruct j; try discriminate; intros E.
  - simpl in E. apply Z.eqb_eq in E. subst. reflexivity.
  - apply resolve_join_nocase; exact E.
Qed.

(** C8.  Style names are matched without regard to case: whenever the cap
    style and the join style are each written as some casing of a member
    name (or as the code), both resolve to the member's integer code and
    [buffer] behaves exactly as with the two codes.  So "ROUND", "round"
    and "Round" all resolve to 1 and give the same result. *)
Theorem buffer_style_case_insensitive :
  forall g r q c j m ss (cap : BufferCapStyles.t) (join : BufferJoinStyles.t),
    cap_spelling c cap = true ->
    join_spelling j join = true ->
    resolve_cap_style c = Ok (PyInt (BufferCapStyles.value cap)) /\
    resolve_join_style j = Ok (PyInt (BufferJoinStyles.value join)) /\
    buffer g r q c j m ss
    = buffer g r q (PyInt (BufferCapStyles.value cap))
        (PyInt (BufferJoinStyles.value join)) m ss.
Proof.
  intros g r q c j m ss cap join Ec Ej.
  pose proof (cap_spelling_resolve _ _ Ec) as Rc.
  pose proof (join_spelling_resolve _ _ Ej) as Rj.
  repeat split; try assumption.
  apply buffer_resolved; assumption.
Qed.

End Styles.

(** On ASCII strings, "unrecognized" is exactly "equal to no member name
    up to case". *)
Lemma ascii_upper_cases (a : N) :
  (97 <= a <= 122 /\ ascii_upper a = a - 32)%N \/
  (~ (97 <= a <= 122)%N /\ ascii_upper a = a).
Proof.
  unfold ascii_upper.
  destruct (N.leb_spec 97 a); destruct (N.leb_spec a 122); simpl;
    first [left; split; [lia | reflexivity] | right; split; [lia | reflexivity]].
Qed.

Lemma ascii_upper_idem (a : N) : ascii_upper (ascii_upper a) = ascii_upper a.
Proof.
  destruct (ascii_upper_cases a) as [[R E] | [R E]]; rewrite E.
  - destruct (ascii_upper_cases (a - 32)) as [[R' E'] | [R' E']];
      [lia | exact E'].
  - exact E.
Qed.

Lemma ascii_upper_ltb (a : N) :
  N.ltb a 128 = true -> N.ltb (ascii_upper a) 128 = true.
Proof.
  rewrite !N.ltb_lt.
  destruct (ascii_upper_cases a) as [[R E] | [R E]]; rewrite E; lia.
Qed.

Lemma ascii_upper_nocase (a : N) :
  N.ltb a 128 = true -> cp_eqb_nocase a (ascii_upper a) = true.
Proof.
  intros L. unfold cp_eqb_nocase.
  rewrite L, (ascii_upper_ltb _ L), ascii_upper_idem, N.eqb_refl.
  apply orb_true_r.
Qed.

Section AsciiNames.
Context `{Unicode}.

Lemma eqb_nocase_upper_ascii (s : pystr) :
  is_ascii s = true -> eqb_nocase s (upper s) = true.
Proof.
  induction s as [|a s IH]; simpl; [reflexivity|].
  rewrite andb_true_iff. intros [L A].
  unfold upper; simpl. unfold upper_cp at 1. rewrite L. simpl.
  rewrite (ascii_upper_nocase _ L). apply IH; assumption.
Qed.

Lemma unrecognized_cap_ascii (s : pystr) :
  is_ascii s = true ->
  unrecognized_cap (PyStr s) = true <->
  forall m, eqb_nocase s (BufferCapStyles.name m) = false.
Proof.
  intros A. unfold unrecognized_cap. split.
  - intros U m. destruct (eqb_nocase s (BufferCapStyles.name m)) eqn:E; auto.
    rewrite (eqb_nocase_upper _ _ E), upper_cap_name, cap_getitem_name in U.
    discriminate.
  - intros N.
    destruct (BufferCapStyles.getitem (upper s)) as [m|] eqn:G; auto.
    apply cap_getitem_Ok in G. specialize (N m).
    rewrite <- G, (eqb_nocase_upper_ascii _ A) in N. discriminate.
Qed.

Lemma unrecognized_join_ascii (s : pystr) :
  is_ascii s = true ->
  unrecognized_join (PyStr s) = true <->
  forall m, eqb_nocase s (BufferJoinStyles.name m) = false.
Proof.
  intros A. unfold unrecognized_join. split.
  - intros U m. destruct (eqb_nocase s (BufferJoinStyles.name m)) eqn:E; auto.
    rewrite (eqb_nocase_upper _ _ E), upper_join_name, join_getitem_name in U.
    discriminate.
  - intros N.
    destruct (BufferJoinStyles.getitem (upper s)) as [m|] eqn:G; auto.
    apply join_getitem_Ok in G. specialize (N m).
    rewrite <- G, (eqb_nocase_upper_ascii _ A) in N. discriminate.
Qed.

End AsciiNames.

(** ** Validation errors of [buffer] *)

Section Validation.
Context `{Unicode} `{NumPy} `{GEOS}.

(** C2, as amended.  When neither style is an unrecognized string and at
    least one of [quadsegs], [cap_style], [join_style], [mitre_limit],
    [single_sided] is not a scalar, [buffer] raises the [TypeError] that
    names one of the parameters at fault, whatever that value contains, and
    no ufunc has been called. *)
Theorem buffer_scalar_only_enforced :
  forall g r q c j m ss,
    offending_style c j = None ->
    np_isscalar q = false \/ np_isscalar c = false \/ np_isscalar j = false \/
    np_isscalar m = false \/ np_isscalar ss = false ->
    exists name v,
      In (name, v) (scalar_only_params q c j m ss) /\
      np_isscalar v = false /\
      buffer g r q c j m ss
      = ([], Raise (TypeError (name ++ " only accepts scalar values"))).
Proof.
  intros g r q c j m ss O D.
  apply offending_style_None in O as [Uc Uj].
  assert (F : exists name v,
             In (name, v) (scalar_only_params q c j m ss) /\
             np_isscalar v = false /\
             first_nonscalar (scalar_only_params q c j m ss) = Some name).
  { unfold scalar_only_params; simpl.
    destruct (np_isscalar q) eqn:Sq; [|exists "quadsegs"%string, q; auto].
    destruct (np_isscalar c) eqn:Sc; [|exists "cap_style"%string, c; auto].
    destruct (np_isscalar j) eqn:Sj; [|exists "join_style"%string, j; auto 6].
    destruct (np_isscalar m) eqn:Sm; [|exists "mitre_limit"%string, m; auto 7].
    destruct (np_isscalar ss) eqn:Ss;
      [|exists "single_sided"%string, ss; auto 8].
    destruct D as [D | [D | [D | [D | D]]]]; discriminate. }
  destruct F as (name & v & I & S & F).
  exists name, v. repeat split; try assumption.
  apply buffer_nonscalar; assumption.
Qed.

(** C5, as amended.  When [cap_style] or [join_style] is a string that
    matches no member name once upper-cased, [buffer] raises [KeyError]
    carrying the upper-cased form of that string (of the cap style if both
    are at fault), before any scalar check and before any ufunc call. *)
Theorem buffer_unknown_style_name :
  forall g r q c j m ss,
    unrecognized_cap c = true \/ unrecognized_join j = true ->
    exists bad,
      offending_style c j = Some bad /\
      (c = PyStr bad \/ j = PyStr bad) /\
      buffer g r q c j m ss = ([], Raise (KeyError (upper bad))).
Proof.
  intros g r q c j m ss U.
  destruct (offending_style_Some c j U) as (bad & O).
  exists bad. repeat split; try assumption.
  - unfold offending_style in O.
    destruct c, j; cbv beta iota in O; try discriminate;
      repeat match type of O with
             | (if ?u then _ else _) = _ => destruct u
             end;
      try discriminate; injection O as <-; auto.
  - apply buffer_unrecognized; assumption.
Qed.

(** C10.  Style names are resolved before any scalar check, and the scalar
    checks run in the order quadsegs, cap_style, join_style, mitre_limit,
    single_sided.  So an unrecognized style string yields the [KeyError]
    whatever the other parameters are, arrays included; and otherwise the
    [TypeError] names the first parameter, in that order, that is not a
    scalar. *)
Theorem buffer_error_precedence :
  forall g r q c j m ss,
    (forall bad,
        offending_style c j = Some bad ->
        buffer g r q c j m ss = ([], Raise (KeyError (upper bad)))) /\
    (forall name,
        offending_style c j = None ->
        first_nonscalar (scalar_only_params q c j m ss) = Some name ->
        buffer g r q c j m ss
        = ([], Raise (TypeError (name ++ " only accepts scalar values")))).
Proof.
  intros g r q c j m ss. split.
  - intros bad O. apply buffer_unrecognized; assumption.
  - intros name O F. apply offending_style_None in O as [Uc Uj].
    apply buffer_nonscalar; assumption.
Qed.

(** C9, as amended.  Before the call, [quadsegs] and the resolved styles
    are coerced with [np.intc], [single_sided] with [np.bool], and
    [mitre_limit] is passed on as it is.  For arguments whose integer part
    lies in the range of a C [int], the call carries those integer parts,
    the truth value of [single_sided] and the mitre limit unchanged.  An
    argument that denotes an integer keeps its value; a float with a
    fractional part is truncated towards zero. *)
Theorem buffer_coercions_truncate :
  forall g r q c j m ss c' j' zq zc zj,
    resolve_cap_style c = Ok c' ->
    resolve_join_style j = Ok j' ->
    trunc_value q = Some zq -> in_intc_range zq = true ->
    trunc_value c' = Some zc -> in_intc_range zc = true ->
    trunc_value j' = Some zj -> in_intc_range zj = true ->
    np_isscalar m = true ->
    np_isscalar ss = true ->
    exists b,
      np_bool ss = Ok b /\
      buffer g r q c j m ss = call (Call_buffer g r zq zc zj m b) /\
      np_intc q = Ok zq /\ np_intc c' = Ok zc /\ np_intc j' = Ok zj /\
      (forall z, int_value q = Some z -> zq = z) /\
      (forall z, int_value c' = Some z -> zc = z) /\
      (forall z, int_value j' = Some z -> zj = z) /\
      (forall b0, ss = PyBool b0 -> b = b0).
Proof.
  intros g r q c j m ss c' j' zq zc zj Hc Hj Vq Rq Vc Rc Vj Rj Sm Ss.
  destruct (trunc_value_intc _ Vq Rq) as [Iq Sq].
  destruct (trunc_value_intc _ Vc Rc) as [Ic Sc].
  destruct (trunc_value_intc _ Vj Rj) as [Ij Sj].
  destruct (scalar_has_truth _ Ss) as (b & B).
  exists b. split; [exact B|]. split.
  { apply buffer_accepted. exists c', j'. repeat split; assumption. }
  split; [exact Iq|]. split; [exact Ic|]. split; [exact Ij|].
  split; [|split; [|split]].
  - intros z V. apply int_value_trunc in V. congruence.
  - intros z V. apply int_value_trunc in V. congruence.
  - intros z V. apply int_value_trunc in V. congruence.
  - intros b0 ->. simpl in B. congruence.
Qed.

End Validation.

(** ** Dispatch to the ufuncs *)

Section Dispatch.
Context `{Unicode} `{NumPy} `{GEOS}.

(** C4.  [simplify] with [preserve_topology=True] calls
    [ufuncs.simplify_preserve_topology], with [False] it calls
    [ufuncs.simplify]: two different primitives, each given the geometries
    and the tolerance only, and each call's outcome is what [simplify]
    returns. *)
Theorem simplify_selects_primitive :
  forall g t,
    trace (simplify g t (PyBool true)) = [Call_simplify_preserve_topology g t] /\
    trace (simplify g t (PyBool false)) = [Call_simplify g t] /\
    primitive_of (Call_simplify_preserve_topology g t)
    <> primitive_of (Call_simplify g t) /\
    outcome (simplify g t (PyBool true))
    = ufuncs.exec (Call_simplify_preserve_topology g t) /\
    outcome (simplify g t (PyBool false)) = ufuncs.exec (Call_simplify g t).
Proof.
  intros g t. unfold simplify. simpl py_bool. rewrite !bind_lift_Ok.
  repeat split; try reflexivity. simpl; discriminate.
Qed.

(** C6.  [boundary(Empty)], [centroid(Empty)] and [buffer(Empty, 1)] each
    return [Empty]. *)
Theorem empty_propagation :
  outcome (boundary (scalar Empty) []) = Ok (scalar Empty) /\
  outcome (centroid (scalar Empty)) = Ok (scalar Empty) /\
  outcome (buffer (scalar Empty) (scalar (float_of_Z 1)) default_quadsegs
             default_cap_style default_join_style default_mitre_limit
             default_single_sided) = Ok (scalar Empty).
Proof. repeat split; reflexivity. Qed.

(** C7.  For a line or point geometry and a radius that is not positive,
    [buffer] with parameters that pass its checks returns [Empty], from one
    call of [ufuncs.buffer]. *)
Theorem buffer_nonpositive_line_or_point :
  forall t body radius q c j m ss zq zc zj b,
    ufuncs.is_line_or_point t = true ->
    SFleb radius float_zero = true ->
    accepted q c j m ss zq zc zj b ->
    buffer (scalar (Geom t body)) (scalar radius) q c j m ss
    = ([Call_buffer (scalar (Geom t body)) (scalar radius) zq zc zj m b],
       Ok (scalar Empty)).
Proof.
  intros t body radius q c j m ss zq zc zj b L R Acc.
  rewrite (buffer_accepted _ _ Acc). unfold call. f_equal.
  unfold ufuncs.exec. rewrite broadcast_scalar.
  unfold rbind, ufuncs.elementwise, scalar.
  cbn [data shape List.map ufuncs.mapM]. unfold ufuncs.buffer1.
  rewrite L, R. reflexivity.
Qed.

(** C3.  Every operation of the module, applied to a geometry array with
    all other arguments scalar, returns an array of the shape and size of
    its argument whose i-th element is what the operation returns on the
    i-th geometry alone. *)
Theorem operations_elementwise :
  forall (o : op) (A out : ndarray Geometry),
    outcome (apply o A) = Ok out ->
    shape out = shape A /\
    size out = size A /\
    forall i, (i < size A)%nat ->
      exists a b,
        item A i = Some a /\ item out i = Some b /\
        outcome (apply o a) = Ok b.
Proof.
  intros o A out E.
  destruct (apply_pointwise o) as [(e & R) | (f & P)].
  - rewrite R in E. discriminate.
  - rewrite P in E. destruct (elementwise_items _ _ E) as (Sh & Sz & It).
    repeat split; try assumption.
    intros i Hi. unfold size in Hi.
    destruct (nth_error (data A) i) as [a|] eqn:N;
      [|apply nth_error_None in N; lia].
    destruct (It i a N) as (b & Nb & Eb).
    exists (scalar a), (scalar b). unfold item. rewrite N, Nb, P.
    repeat split; assumption.
Qed.

(** The converse, for a non-empty array: when the operation returns on
    every element taken alone, it returns on the array. *)
Lemma operations_return_together (o : op) (A : ndarray Geometry) :
  (0 < size A)%nat ->
  (forall i a, item A i = Some a -> exists b, outcome (apply o a) = Ok b) ->
  exists out, outcome (apply o A) = Ok out.
Proof.
  intros Pos All.
  destruct (apply_pointwise o) as [(e & R) | (f & P)].
  - exfalso. unfold size in Pos.
    destruct (data A) as [|g l] eqn:D; [simpl in Pos; lia|].
    destruct (All 0%nat (scalar g)) as (b & E).
    + unfold item. rewrite D. reflexivity.
    + rewrite R in E. discriminate.
  - rewrite P. unfold ufuncs.elementwise.
    destruct (mapM_succeeds f (data A)) as (d & E).
    + intros g I. apply In_nth_error in I as (i & N).
      destruct (All i (scalar g)) as (b & E).
      * unfold item. rewrite N. reflexivity.
      * rewrite P in E. unfold ufuncs.elementwise in E; simpl in E.
        destruct (f g) as [y|]; [eauto | discriminate].
    + rewrite E. simpl. eauto.
Qed.

End Dispatch.

(** ** Concrete runs on the sample runtime *)

(** C2, as stated, fails on
    [buffer(point, 2, quadsegs=[8, 16], cap_style="hexagon")]: one of the
    scalar-only parameters is an array, and yet the call does not fail with
    a [TypeError]: the style lookup comes first and raises [KeyError]. *)
Lemma buffer_array_and_unknown_style :
  np_isscalar (PyList [PyInt 8; PyInt 16]) = false /\
  buffer point_10_10 (scalar (float_of_Z 2)) (PyList [PyInt 8; PyInt 16])
    (PyStr (str "hexagon")) default_join_style default_mitre_limit
    default_single_sided
  = ([], Raise (KeyError (str "HEXAGON"))) /\
  ~ (exists msg,
        outcome
          (buffer point_10_10 (scalar (float_of_Z 2))
             (PyList [PyInt 8; PyInt 16]) (PyStr (str "hexagon"))
             default_join_style default_mitre_limit default_single_sided)
        = Raise (TypeError msg)).
Proof.
  split; [reflexivity|]. split; [reflexivity|].
  intros [msg E]. discriminate E.
Qed.

(** C5, as stated, fails on [buffer(point, 2, cap_style="hexagon")]: the
    [KeyError] carries "HEXAGON", the upper-cased string, not the value
    that was passed. *)
Lemma buffer_hexagon_reports_upper_case :
  unrecognized_cap (PyStr (str "hexagon")) = true /\
  buffer point_10_10 (scalar (float_of_Z 2)) default_quadsegs
    (PyStr (str "hexagon")) default_join_style default_mitre_limit
    default_single_sided
  = ([], Raise (KeyError (str "HEXAGON"))) /\
  outcome
    (buffer point_10_10 (scalar (float_of_Z 2)) default_quadsegs
       (PyStr (str "hexagon")) default_join_style default_mitre_limit
       default_single_sided)
  <> Raise (KeyError (str "hexagon")).
Proof.
  split; [reflexivity|]. split; [reflexivity|].
  intros E. discriminate E.
Qed.

Lemma buffer_scalar_only_enforced_witness :
  (offending_style default_cap_style (PyInt 2) = None /\
   np_isscalar an_array = false) /\
  exists name v,
    In (name, v)
      (scalar_only_params default_quadsegs default_cap_style (PyInt 2)
         an_array default_single_sided) /\
    np_isscalar v = false /\
    buffer line_10_20 (scalar (float_of_Z 2)) default_quadsegs
      default_cap_style (PyInt 2) an_array default_single_sided
    = ([], Raise (TypeError (name ++ " only accepts scalar values"))).
Proof.
  split; [split; reflexivity|].
  apply (buffer_scalar_only_enforced line_10_20 (scalar (float_of_Z 2))
           default_quadsegs default_cap_style (PyInt 2) an_array
           default_single_sided).
  - reflexivity.
  - right; right; right; left; reflexivity.
Defined.

Lemma buffer_unknown_style_name_witness :
  unrecognized_join (PyStr (str "Mitred")) = true /\
  exists bad,
    offending_style (PyInt 2) (PyStr (str "Mitred")) = Some bad /\
    (PyInt 2 = PyStr bad \/ PyStr (str "Mitred") = PyStr bad) /\
    buffer line_10_20 (scalar (float_of_Z 2)) an_array (PyInt 2)
      (PyStr (str "Mitred")) default_mitre_limit default_single_sided
    = ([], Raise (KeyError (upper bad))).
Proof.
  split; [reflexivity|].
  apply (buffer_unknown_style_name line_10_20 (scalar (float_of_Z 2))
           an_array (PyInt 2) (PyStr (str "Mitred")) default_mitre_limit
           default_single_sided).
  right; reflexivity.
Defined.

Lemma buffer_error_precedence_witness :
  (offending_style (PyStr (str "hexagon")) default_join_style
   = Some (str "hexagon") /\
   buffer point_10_10 (scalar (float_of_Z 2)) an_array
     (PyStr (str "hexagon")) default_join_style an_array PyNone
   = ([], Raise (KeyError (str "HEXAGON")))) /\
  (offending_style (PyStr (str "flat")) default_join_style = None /\
   first_nonscalar
     (scalar_only_params default_quadsegs (PyStr (str "flat"))
        default_join_style an_array PyNone) = Some "mitre_limit"%string /\
   buffer point_10_10 (scalar (float_of_Z 2)) default_quadsegs
     (PyStr (str "flat")) default_join_style an_array PyNone
   = ([], Raise (TypeError "mitre_limit only accepts scalar values"))).
Proof.
  split; (split; [reflexivity|]).
  - apply (proj1 (buffer_error_precedence point_10_10 (scalar (float_of_Z 2))
                    an_array (PyStr (str "hexagon")) default_join_style
                    an_array PyNone) (str "hexagon")).
    reflexivity.
  - split; [reflexivity|].
    apply (proj2 (buffer_error_precedence point_10_10 (scalar (float_of_Z 2))
                    default_quadsegs (PyStr (str "flat")) default_join_style
                    an_array PyNone) "mitre_limit"%string); reflexivity.
Defined.

Lemma buffer_style_case_insensitive_witness :
  (cap_spelling (PyStr (str "Round")) BufferCapStyles.ROUND = true /\
   join_spelling (PyStr (str "miTRE")) BufferJoinStyles.MITRE = true) /\
  resolve_cap_style (PyStr (str "Round")) = Ok (PyInt 1) /\
  resolve_join_style (PyStr (str "miTRE")) = Ok (PyInt 2) /\
  buffer line_10_20 (scalar (float_of_Z 2)) default_quadsegs
    (PyStr (str "Round")) (PyStr (str "miTRE")) default_mitre_limit
    default_single_sided
  = buffer line_10_20 (scalar (float_of_Z 2)) default_quadsegs
      (PyInt 1) (PyInt 2) default_mitre_limit default_single_sided.
Proof.
  split; [split; reflexivity|].
  apply (buffer_style_case_insensitive line_10_20 (scalar (float_of_Z 2))
           default_quadsegs (PyStr (str "Round")) (PyStr (str "miTRE"))
           default_mitre_limit default_single_sided
           BufferCapStyles.ROUND BufferJoinStyles.MITRE); reflexivity.
Defined.

(** C9, as stated, fails on [buffer(line, 2, quadsegs=8.5)]: 8.5 lies in
    the range of a C [int] and denotes no integer, and the call goes out
    with 8, a different number, without any error. *)
Lemma buffer_quadsegs_8_5_becomes_8 :
  SFleb (float_of_Z intc_min) float_8_5 = true /\
  SFleb float_8_5 (float_of_Z intc_max) = true /\
  int_value (PyFloat float_8_5) = None /\
  np_intc (PyFloat float_8_5) = Ok 8 /\
  SFeqb (float_of_Z 8) float_8_5 = false /\
  buffer line_10_20 (scalar (float_of_Z 2)) (PyFloat float_8_5)
    default_cap_style default_join_style default_mitre_limit
    default_single_sided
  = call (Call_buffer line_10_20 (scalar (float_of_Z 2)) 8 1 1
            default_mitre_limit false).
Proof. repeat split; reflexivity. Qed.

Lemma buffer_coercions_truncate_witness :
  (resolve_cap_style (PyStr (str "flat")) = Ok (PyInt 2) /\
   resolve_join_style (PyJoinStyle BufferJoinStyles.BEVEL)
   = Ok (PyJoinStyle BufferJoinStyles.BEVEL) /\
   trunc_value (PyFloat float_8_5) = Some 8 /\
   in_intc_range 8 = true /\
   np_isscalar (PyInt 1) = true) /\
  exists b,
    np_bool (PyInt 1) = Ok b /\
    buffer line_10_20 (scalar (float_of_Z 2)) (PyFloat float_8_5)
      (PyStr (str "flat")) (PyJoinStyle BufferJoinStyles.BEVEL)
      default_mitre_limit (PyInt 1)
    = call (Call_buffer line_10_20 (scalar (float_of_Z 2)) 8 2 3
              default_mitre_limit b) /\
    np_intc (PyFloat float_8_5) = Ok 8 /\
    np_intc (PyInt 2) = Ok 2 /\
    np_intc (PyJoinStyle BufferJoinStyles.BEVEL) = Ok 3 /\
    (forall z, int_value (PyFloat float_8_5) = Some z -> 8 = z) /\
    (forall z, int_value (PyInt 2) = Some z -> 2 = z) /\
    (forall z, int_value (PyJoinStyle BufferJoinStyles.BEVEL) = Some z ->
               3 = z) /\
    (forall b0, PyInt 1 = PyBool b0 -> b = b0).
Proof.
  split; [repeat split; reflexivity|].
  apply (@buffer_coercions_truncate _ _ _ line_10_20 (scalar (float_of_Z 2))
           (PyFloat float_8_5) (PyStr (str "flat"))
           (PyJoinStyle BufferJoinStyles.BEVEL) default_mitre_limit (PyInt 1)
           (PyInt 2) (PyJoinStyle BufferJoinStyles.BEVEL) 8 2 3);
    reflexivity.
Defined.

Lemma buffer_nonpositive_line_or_point_witness :
  (ufuncs.is_line_or_point POINT = true /\
   SFleb (float_of_Z (-2)) float_zero = true) /\
  buffer point_10_10 (scalar (float_of_Z (-2))) (PyInt 1) default_cap_style
    default_join_style default_mitre_limit default_single_sided
  = ([Call_buffer point_10_10 (scalar (float_of_Z (-2))) 1 1 1
        default_mitre_limit false],
     Ok (scalar Empty)).
Proof.
  split; [split; reflexivity|].
  apply (buffer_nonpositive_line_or_point POINT "(10 10)" (float_of_Z (-2))
           (q := PyInt 1) (c := default_cap_style) (j := default_join_style)
           (m := default_mitre_limit) (ss := default_single_sided)).
  - reflexivity.
  - reflexivity.
  - exists (PyInt 1), (PyInt 1). repeat split; reflexivity.
Defined.

Lemma operations_elementwise_witness :
  outcome
    (apply (Op_buffer (float_of_Z (-2)) (PyInt 1) default_cap_style
              (PyStr (str "MITRE")) default_mitre_limit default_single_sided)
       three_geometries) = Ok three_buffers /\
  shape three_buffers = shape three_geometries /\
  size three_buffers = size three_geometries /\
  forall i, (i < size three_geometries)%nat ->
    exists a b,
      item three_geometries i = Some a /\ item three_buffers i = Some b /\
      outcome
        (apply (Op_buffer (float_of_Z (-2)) (PyInt 1) default_cap_style
                  (PyStr (str "MITRE")) default_mitre_limit
                  default_single_sided) a) = Ok b.
Proof.
  split; [reflexivity|].
  apply (operations_elementwise
           (Op_buffer (float_of_Z (-2)) (PyInt 1) default_cap_style
              (PyStr (str "MITRE")) default_mitre_limit default_single_sided)
           three_geometries).
  reflexivity.
Defined.

(** On the sample engine the two branches of [simplify] give different
    geometries for the same arguments. *)
Lemma simplify_branches_differ :
  outcome (simplify line_10_20 default_tolerance (PyBool true))
  <> outcome (simplify line_10_20 default_tolerance (PyBool false)).
Proof. intros E. discriminate E. Qed.

(** * Further properties of the module *)

Section BufferParameters.
Context `{Unicode} `{NumPy} `{GEOS}.

(** [buffer] looks at a style only through its resolution, at [quadsegs]
    only through [np.isscalar] and [np.intc], and at [single_sided] only
    through [np.isscalar] and [np.bool]. *)
Lemma buffer_styles_ext g r q c1 c2 j1 j2 m ss :
  resolve_cap_style c1 = resolve_cap_style c2 ->
  resolve_join_style j1 = resolve_join_style j2 ->
  buffer g r q c1 j1 m ss = buffer g r q c2 j2 m ss.
Proof. intros Ec Ej. unfold buffer. rewrite Ec, Ej. reflexivity. Qed.

Lemma buffer_quadsegs_ext g r q1 q2 c j m ss :
  np_isscalar q1 = np_isscalar q2 ->
  np_intc q1 = np_intc q2 ->
  buffer g r q1 c j m ss = buffer g r q2 c j m ss.
Proof. intros E1 E2. unfold buffer. rewrite E1, E2. reflexivity. Qed.

Lemma buffer_single_sided_ext g r q c j m s1 s2 :
  np_isscalar s1 = np_isscalar s2 ->
  np_bool s1 = np_bool s2 ->
  buffer g r q c j m s1 = buffer g r q c j m s2.
Proof. intros E1 E2. unfold buffer. rewrite E1, E2. reflexivity. Qed.

Lemma buffer_cap_value_ext g r q c1 c2 j m ss :
  resolve_cap_style c1 = Ok c1 ->
  resolve_cap_style c2 = Ok c2 ->
  np_isscalar c1 = np_isscalar c2 ->
  np_intc c1 = np_intc c2 ->
  buffer g r q c1 j m ss = buffer g r q c2 j m ss.
Proof.
  intros R1 R2 E1 E2. unfold buffer. rewrite R1, R2, !bind_lift_Ok.
  destruct (resolve_join_style j); [|reflexivity].
  rewrite !bind_lift_Ok, E1, E2. reflexivity.
Qed.

Lemma buffer_join_value_ext g r q c j1 j2 m ss :
  resolve_join_style j1 = Ok j1 ->
  resolve_join_style j2 = Ok j2 ->
  np_isscalar j1 = np_isscalar j2 ->
  np_intc j1 = np_intc j2 ->
  buffer g r q c j1 m ss = buffer g r q c j2 m ss.
Proof.
  intros R1 R2 E1 E2. unfold buffer.
  destruct (resolve_cap_style c); [|reflexivity].
  rewrite R1, R2, !bind_lift_Ok, E1, E2. reflexivity.
Qed.

(** X1.  Whatever it is given, [buffer] either raises without having
    called anything, or makes exactly one call, to [ufuncs.buffer], with the
    geometry, the radius and the mitre limit it received, and returns that
    call's outcome. *)
Theorem buffer_calls_at_most_once :
  forall g r q c j m ss,
    (exists e, buffer g r q c j m ss = ([], Raise e)) \/
    (exists zq zc zj b,
        trace (buffer g r q c j m ss) = [Call_buffer g r zq zc zj m b] /\
        outcome (buffer g r q c j m ss)
        = ufuncs.exec (Call_buffer g r zq zc zj m b)).
Proof.
  intros g r q c j m ss.
  destruct (buffer_dispatch q c j m ss) as [(e & E) | (zq & zc & zj & b & Acc)].
  - left; exists e; apply E.
  - right; exists zq, zc, zj, b.
    rewrite (buffer_accepted g r Acc). split; reflexivity.
Qed.

(** X2.  Whether [buffer] rejects its parameters does not depend on the
    geometry or the radius: a call that raised before reaching [ufuncs]
    raises the same exception for every geometry and radius. *)
Theorem buffer_rejection_ignores_geometry :
  forall g r q c j m ss,
    trace (buffer g r q c j m ss) = [] ->
    forall g' r', buffer g' r' q c j m ss = buffer g r q c j m ss.
Proof.
  intros g r q c j m ss T g' r'.
  destruct (buffer_dispatch q c j m ss) as [(e & E) | (zq & zc & zj & b & Acc)].
  - rewrite !E. reflexivity.
  - rewrite (buffer_accepted g r Acc) in T. discriminate T.
Qed.

(** X4.  A style passed as a string reaches [ufuncs.buffer] only as the
    value of the member its upper-cased form names, so as 1, 2 or 3. *)
Theorem buffer_string_style_code :
  forall g r q c j m ss zq zc zj b,
    trace (buffer g r q c j m ss) = [Call_buffer g r zq zc zj m b] ->
    (forall s, c = PyStr s ->
       exists mc, upper s = BufferCapStyles.name mc /\
                  zc = BufferCapStyles.value mc /\ 1 <= zc <= 3) /\
    (forall s, j = PyStr s ->
       exists mj, upper s = BufferJoinStyles.name mj /\
                  zj = BufferJoinStyles.value mj /\ 1 <= zj <= 3).
Proof.
  intros g r q c j m ss zq zc zj b T.
  destruct (buffer_dispatch q c j m ss)
    as [(e & E) | (zq' & zc' & zj' & b' & Acc)];
    [rewrite E in T; discriminate T|].
  rewrite (buffer_accepted g r Acc) in T.
  unfold trace, call in T; simpl in T.
  injection T as -> -> -> ->.
  destruct Acc as (c' & j' & Hc & Hj & _ & _ & _ & _ & _ & _ & Ic & Ij & _).
  split; intros s ->; simpl in Hc, Hj.
  - destruct (BufferCapStyles.getitem (upper s)) as [mc|] eqn:G;
      simpl in Hc; [|discriminate].
    injection Hc as <-. exists mc.
    split; [apply cap_getitem_Ok; exact G|].
    destruct mc; simpl in Ic; injection Ic as <-; simpl;
      (split; [reflexivity | lia]).
  - destruct (BufferJoinStyles.getitem (upper s)) as [mj|] eqn:G;
      simpl in Hj; [|discriminate].
    injection Hj as <-. exists mj.
    split; [apply join_getitem_Ok; exact G|].
    destruct mj; simpl in Ij; injection Ij as <-; simpl;
      (split; [reflexivity | lia]).
Qed.

(** X5.  [buffer] does not tell apart two style strings that differ only
    in the case of ASCII letters, whether they are recognized or not: the
    calls, the result and the exception, key included, are the same. *)
Theorem buffer_style_strings_up_to_case :
  forall g r q s1 s2 t1 t2 m ss,
    eqb_nocase s1 s2 = true ->
    eqb_nocase t1 t2 = true ->
    buffer g r q (PyStr s1) (PyStr t1) m ss
    = buffer g r q (PyStr s2) (PyStr t2) m ss.
Proof.
  intros g r q s1 s2 t1 t2 m ss Es Et.
  apply buffer_styles_ext; simpl.
  - rewrite (eqb_nocase_upper _ _ Es). reflexivity.
  - rewrite (eqb_nocase_upper _ _ Et). reflexivity.
Qed.

(** X6.  The two enumerations share one name only: a string that is
    accepted both as a cap style and as a join style resolves to ROUND, 1,
    in both. *)
Theorem only_round_is_cap_and_join :
  forall s vc vj,
    resolve_cap_style (PyStr s) = Ok vc ->
    resolve_join_style (PyStr s) = Ok vj ->
    vc = PyInt 1 /\ vj = PyInt 1 /\ upper s = str "ROUND".
Proof.
  intros s vc vj Hc Hj. simpl in Hc, Hj.
  destruct (BufferCapStyles.getitem (upper s)) as [mc|] eqn:Gc;
    simpl in Hc; [|discriminate].
  destruct (BufferJoinStyles.getitem (upper s)) as [mj|] eqn:Gj;
    simpl in Hj; [|discriminate].
  injection Hc as <-. injection Hj as <-.
  apply cap_getitem_Ok in Gc. apply join_getitem_Ok in Gj.
  rewrite Gc in Gj |- *.
  destruct mc, mj; try discriminate Gj; repeat split; reflexivity.
Qed.

(** X10.  A member of either enumeration, passed for either style, acts as
    its integer value: [buffer] does not check which enumeration a member
    comes from. *)
Theorem buffer_enum_member_by_value :
  forall g r q c j m ss (mc : BufferCapStyles.t) (mj : BufferJoinStyles.t),
    buffer g r q (PyCapStyle mc) j m ss
    = buffer g r q (PyInt (BufferCapStyles.value mc)) j m ss /\
    buffer g r q (PyJoinStyle mj) j m ss
    = buffer g r q (PyInt (BufferJoinStyles.value mj)) j m ss /\
    buffer g r q c (PyJoinStyle mj) m ss
    = buffer g r q c (PyInt (BufferJoinStyles.value mj)) m ss /\
    buffer g r q c (PyCapStyle mc) m ss
    = buffer g r q c (PyInt (BufferCapStyles.value mc)) m ss.
Proof.
  intros g r q c j m ss mc mj. repeat split.
  - apply buffer_cap_value_ext; try reflexivity. destruct mc; reflexivity.
  - apply buffer_cap_value_ext; try reflexivity. destruct mj; reflexivity.
  - apply buffer_join_value_ext; try reflexivity. destruct mj; reflexivity.
  - apply buffer_join_value_ext; try reflexivity. destruct mc; reflexivity.
Qed.

(** X11.  A [quadsegs] given as a float acts as its integer part, rounded
    towards zero, when that fits a C [int]: 8.5 is taken as 8, without any
    error. *)
Theorem buffer_float_quadsegs_truncated :
  forall g r f z c j m ss,
    float_trunc f = Some z ->
    in_intc_range z = true ->
    buffer g r (PyFloat f) c j m ss = buffer g r (PyInt z) c j m ss.
Proof.
  intros g r f z c j m ss T R.
  apply buffer_quadsegs_ext; [reflexivity|].
  simpl. rewrite T, R. reflexivity.
Qed.

(** X12.  [single_sided] is read by its truth: every scalar has one, so
    this coercion never fails, and [buffer] behaves as with that boolean.
    A non-empty string, "False" included, means single-sided. *)
Theorem buffer_single_sided_by_truth :
  forall g r q c j m ss,
    np_isscalar ss = true ->
    exists b,
      py_bool ss = Ok b /\
      buffer g r q c j m ss = buffer g r q c j m (PyBool b) /\
      (forall a s, ss = PyStr (a :: s) -> b = true).
Proof.
  intros g r q c j m ss S.
  assert (B : exists b, py_bool ss = Ok b)
    by (destruct ss; try discriminate S; simpl; eauto).
  destruct B as (b & B). exists b. repeat split; [assumption | |].
  - apply buffer_single_sided_ext; [rewrite S; reflexivity|].
    unfold np_bool. rewrite B. reflexivity.
  - intros a s ->. simpl in B. injection B as <-. reflexivity.
Qed.

End BufferParameters.

(** X3.  Lookup in the enumerations is exact: a key finds a member if and
    only if it is that member's name, letter for letter and in upper case,
    and any other key raises [KeyError] with that key. *)
Theorem enum_getitem_exact :
  forall key,
    (forall m, BufferCapStyles.getitem key = Ok m
               <-> key = BufferCapStyles.name m) /\
    (forall m, BufferJoinStyles.getitem key = Ok m
               <-> key = BufferJoinStyles.name m) /\
    (forall e, BufferCapStyles.getitem key = Raise e -> e = KeyError key) /\
    (forall e, BufferJoinStyles.getitem key = Raise e -> e = KeyError key) /\
    BufferCapStyles.getitem (str "round") = Raise (KeyError (str "round")).
Proof.
  intros key. repeat split.
  - apply cap_getitem_Ok.
  - intros ->. apply cap_getitem_name.
  - apply join_getitem_Ok.
  - intros ->. apply join_getitem_name.
  - apply cap_getitem_Raise.
  - apply join_getitem_Raise.
Qed.

Section Layer.
Context `{Unicode} `{NumPy} `{GEOS}.

(** X7.  [simplify] reads [preserve_topology] by its truth: zero, [None]
    and the empty string select [ufuncs.simplify], any other integer and
    any non-empty string select [ufuncs.simplify_preserve_topology], and an
    array of several elements raises before anything is called. *)
Theorem simplify_flag_by_truth :
  forall g t,
    (forall p b, py_bool p = Ok b -> simplify g t p = simplify g t (PyBool b)) /\
    (forall z, simplify g t (PyInt z)
               = call (if z =? 0 then Call_simplify g t
                       else Call_simplify_preserve_topology g t)) /\
    simplify g t PyNone = call (Call_simplify g t) /\
    simplify g t (PyStr []) = call (Call_simplify g t) /\
    (forall a s, simplify g t (PyStr (a :: s))
                 = call (Call_simplify_preserve_topology g t)) /\
    (forall d x y l, exists e,
        simplify g t (PyNdarray d (x :: y :: l)) = ([], Raise e)).
Proof.
  intros g t. unfold simplify.
  split; [intros p b B; rewrite B; reflexivity|].
  split.
  { intros z. simpl py_bool. rewrite bind_lift_Ok.
    destruct (z =? 0); reflexivity. }
  split; [reflexivity|]. split; [reflexivity|].
  split; [intros a s; reflexivity|].
  intros d x y l. eexists. reflexivity.
Qed.

(** X8.  No function of the module calls [ufuncs] more than once, and a
    call it makes is to a primitive named in its body, carries the geometry
    array it was given, and its outcome, value or error, is returned as it
    is. *)
Theorem layer_forwards_one_call :
  forall (o : op) (A : ndarray Geometry) (c : ufunc_call),
    In c (trace (apply o A)) ->
    trace (apply o A) = [c] /\
    call_geometry c = A /\
    In (primitive_of c) (op_primitives o) /\
    outcome (apply o A) = ufuncs.exec c.
Proof.
  intros o A c I.
  destruct o; cbn [apply] in *;
    try (destruct I as [<- | []]; repeat split; left; reflexivity).
  - (* buffer *)
    destruct (buffer_dispatch quadsegs cap_style join_style mitre_limit
                single_sided) as [(e & E) | (zq & zc & zj & b & Acc)].
    + rewrite E in I. destruct I.
    + rewrite (buffer_accepted A (scalar radius) Acc) in *.
      destruct I as [<- | []]. repeat split. left; reflexivity.
  - (* simplify *)
    destruct (simplify_dispatch preserve_topology) as [(e & E) | [E | E]];
      rewrite E in *.
    + destruct I.
    + destruct I as [<- | []]. repeat split. left; reflexivity.
    + destruct I as [<- | []]. repeat split. right; left; reflexivity.
Qed.

(** X9.  A function of the module never returns a value without having
    called [ufuncs]; and only [buffer] and [simplify] can raise without a
    call: the other nine always make theirs. *)
Theorem layer_no_call_means_rejected :
  forall (o : op) (A : ndarray Geometry),
    trace (apply o A) = [] ->
    has_checks o = true /\ exists e, apply o A = ([], Raise e).
Proof.
  intros o A T. destruct o; try discriminate T; split; try reflexivity.
  - simpl apply in *.
    destruct (buffer_dispatch quadsegs cap_style join_style mitre_limit
                single_sided) as [(e & E) | (zq & zc & zj & b & Acc)].
    + exists e. apply E.
    + rewrite (buffer_accepted A (scalar radius) Acc) in T. discriminate T.
  - simpl apply in *.
    destruct (simplify_dispatch preserve_topology) as [(e & E) | [E | E]].
    + exists e. apply E.
    + rewrite E in T. discriminate T.
    + rewrite E in T. discriminate T.
Qed.

End Layer.

(** ** Concrete runs for the further properties *)

Lemma buffer_rejection_ignores_geometry_witness :
  trace (buffer point_10_10 (scalar (float_of_Z 2)) an_array
           default_cap_style default_join_style default_mitre_limit
           default_single_sided) = [] /\
  buffer three_geometries (scalar (float_of_Z (-2))) an_array
    default_cap_style default_join_style default_mitre_limit
    default_single_sided
  = buffer point_10_10 (scalar (float_of_Z 2)) an_array default_cap_style
      default_join_style default_mitre_limit default_single_sided.
Proof.
  split; [reflexivity|].
  apply (buffer_rejection_ignores_geometry point_10_10
           (scalar (float_of_Z 2)) an_array default_cap_style
           default_join_style default_mitre_limit default_single_sided).
  reflexivity.
Defined.

Lemma buffer_string_style_code_witness :
  trace (buffer line_10_20 (scalar (float_of_Z 2)) default_quadsegs
           (PyStr (str "Square")) (PyStr (str "bevel")) default_mitre_limit
           default_single_sided)
  = [Call_buffer line_10_20 (scalar (float_of_Z 2)) 8 3 3
       default_mitre_limit false] /\
  (exists mc, upper (str "Square") = BufferCapStyles.name mc /\
              3 = BufferCapStyles.value mc /\ 1 <= 3 <= 3).
Proof.
  split; [reflexivity|].
  apply (proj1 (@buffer_string_style_code _ _ _ line_10_20
                  (scalar (float_of_Z 2)) default_quadsegs
                  (PyStr (str "Square")) (PyStr (str "bevel"))
                  default_mitre_limit default_single_sided 8 3 3 false
                  eq_refl)
           (str "Square") eq_refl).
Defined.

Lemma buffer_style_strings_up_to_case_witness :
  (eqb_nocase (str "Hexagon") (str "hEXAGON") = true /\
   eqb_nocase (str "MITRE") (str "mitre") = true) /\
  buffer line_10_20 (scalar (float_of_Z 2)) default_quadsegs
    (PyStr (str "Hexagon")) (PyStr (str "MITRE")) default_mitre_limit
    default_single_sided
  = buffer line_10_20 (scalar (float_of_Z 2)) default_quadsegs
      (PyStr (str "hEXAGON")) (PyStr (str "mitre")) default_mitre_limit
      default_single_sided.
Proof.
  split; [split; reflexivity|].
  apply (buffer_style_strings_up_to_case line_10_20 (scalar (float_of_Z 2))
           default_quadsegs (str "Hexagon") (str "hEXAGON") (str "MITRE")
           (str "mitre") default_mitre_limit default_single_sided);
    reflexivity.
Defined.

Lemma only_round_is_cap_and_join_witness :
  (resolve_cap_style (PyStr (str "Round")) = Ok (PyInt 1) /\
   resolve_join_style (PyStr (str "Round")) = Ok (PyInt 1)) /\
  PyInt 1 = PyInt 1 /\ PyInt 1 = PyInt 1 /\ upper (str "Round") = str "ROUND".
Proof.
  split; [split; reflexivity|].
  apply (@only_round_is_cap_and_join _ (str "Round") (PyInt 1) (PyInt 1));
    reflexivity.
Defined.

Lemma buffer_float_quadsegs_truncated_witness :
  (float_trunc float_8_5 = Some 8 /\ in_intc_range 8 = true) /\
  buffer point_10_10 (scalar (float_of_Z 2)) (PyFloat float_8_5)
    default_cap_style default_join_style default_mitre_limit
    default_single_sided
  = buffer point_10_10 (scalar (float_of_Z 2)) (PyInt 8) default_cap_style
      default_join_style default_mitre_limit default_single_sided.
Proof.
  split; [split; reflexivity|].
  apply (@buffer_float_quadsegs_truncated _ _ _ point_10_10
           (scalar (float_of_Z 2)) float_8_5 8 default_cap_style
           default_join_style default_mitre_limit default_single_sided);
    reflexivity.
Defined.

Lemma buffer_single_sided_by_truth_witness :
  np_isscalar (PyStr (str "False")) = true /\
  exists b,
    py_bool (PyStr (str "False")) = Ok b /\
    buffer line_10_20 (scalar (float_of_Z 2)) default_quadsegs
      default_cap_style default_join_style default_mitre_limit
      (PyStr (str "False"))
    = buffer line_10_20 (scalar (float_of_Z 2)) default_quadsegs
        default_cap_style default_join_style default_mitre_limit (PyBool b) /\
    (forall a s, PyStr (str "False") = PyStr (a :: s) -> b = true).
Proof.
  split; [reflexivity|].
  apply (buffer_single_sided_by_truth line_10_20 (scalar (float_of_Z 2))
           default_quadsegs default_cap_style default_join_style
           default_mitre_limit (PyStr (str "False"))).
  reflexivity.
Defined.

Lemma simplify_flag_by_truth_witness :
  py_bool (PyStr (str "False")) = Ok true /\
  simplify line_10_20 default_tolerance (PyStr (str "False"))
  = simplify line_10_20 default_tolerance (PyBool true).
Proof.
  split; [reflexivity|].
  apply (proj1 (simplify_flag_by_truth line_10_20 default_tolerance)
           (PyStr (str "False")) true).
  reflexivity.
Defined.

Lemma layer_forwards_one_call_witness :
  In (Call_snap three_geometries point_10_10 default_tolerance)
    (trace (apply (Op_snap (Geom POINT "(10 10)") float_zero)
              three_geometries)) /\
  trace (apply (Op_snap (Geom POINT "(10 10)") float_zero) three_geometries)
  = [Call_snap three_geometries point_10_10 default_tolerance] /\
  call_geometry (Call_snap three_geometries point_10_10 default_tolerance)
  = three_geometries /\
  In (primitive_of (Call_snap three_geometries point_10_10 default_tolerance))
    (op_primitives (Op_snap (Geom POINT "(10 10)") float_zero)) /\
  outcome (apply (Op_snap (Geom POINT "(10 10)") float_zero) three_geometries)
  = ufuncs.exec (Call_snap three_geometries point_10_10 default_tolerance).
Proof.
  split; [left; reflexivity|].
  apply (layer_forwards_one_call (Op_snap (Geom POINT "(10 10)") float_zero)
           three_geometries).
  left; reflexivity.
Defined.

Lemma layer_no_call_means_rejected_witness :
  trace (apply (Op_simplify float_zero an_array) three_geometries) = [] /\
  has_checks (Op_simplify float_zero an_array) = true /\
  exists e,
    apply (Op_simplify float_zero an_array) three_geometries = ([], Raise e).
Proof.
  split; [reflexivity|].
  apply (layer_no_call_means_rejected (Op_simplify float_zero an_array)
           three_geometries).
  reflexivity.
Defined.
